(** * openapi-cli: OpenAPI operation extraction and request compilation

    A shallow embedding of [pkg/openapi] (GetSchema, parseServer,
    removeRefs, Run and the four parameter serialisers) together with the
    properties of the design document that can be stated over it.

    Conventions.
    - Go strings are byte strings; they are modelled by [string].
    - A Go map that the code only indexes is a [gmap].  A Go map that the
      code ranges over is given as the list of its entries in the order the
      [range] statement visits them; Go leaves that order unspecified, so a
      statement quantified over the list covers every order.
    - A function that can return an error, or stop on a nil dereference,
      returns an [outcome]. *)

From Stdlib Require Import String Ascii List Bool Arith Lia.
From stdpp Require Import base option list sorting gmap strings.

Set Warnings "-register-all".
Local Open Scope string_scope.
Local Open Scope list_scope.

(** ** Errors and outcomes *)

(** The errors of the design document, each carrying the data of the
    [fmt.Errorf] call that produces it. *)
Inductive error : Type :=
| DocumentLoadError (file : string)
| InvalidServerURL (s : string)
| UnsupportedBodyMIME (operationID : string)
| ValidatorError
| ValidationError (operationID : string)
| JoinPathError
| ParseURLError (serverAndPath : string)
| NewRequestError
| EncodeJSONError
| InvalidBodyShape
| WriteFieldError
| CloseWriterError
| UnsupportedMIME (mime : string)
| TransportError
| ReadResponseError.

(** [Ret] is a normal return without error, [Fail] a return with a non-nil
    error, [Panic] a nil-pointer dereference. *)
Inductive outcome (A : Type) : Type :=
| Ret (a : A)
| Fail (e : error)
| Panic.
Arguments Ret {A} a.
Arguments Fail {A} e.
Arguments Panic {A}.

#[global] Instance outcome_ret : MRet outcome := fun A a => Ret a.
#[global] Instance outcome_bind : MBind outcome := fun A B k m =>
  match m with
  | Ret a => k a
  | Fail e => Fail e
  | Panic => Panic
  end.

(** ** The [strings] package *)

Module strings.

(** [strings.HasPrefix(s, prefix)]. *)
Fixpoint HasPrefix (s p : string) {struct p} : bool :=
  match p, s with
  | EmptyString, _ => true
  | String _ _, EmptyString => false
  | String c p', String d s' => if Ascii.eqb d c then HasPrefix s' p' else false
  end.

(** The suffix of [s] after its first [n] bytes, [s[n:]]. *)
Fixpoint drop (n : nat) (s : string) {struct n} : string :=
  match n, s with
  | O, _ => s
  | S _, EmptyString => EmptyString
  | S n', String _ s' => drop n' s'
  end.

(** [strings.Replace(s, old, new, 1)]: the leftmost occurrence of [old]
    is replaced; [s] is returned unchanged when there is none. *)
Fixpoint Replace1 (s old new : string) : string :=
  if HasPrefix s old then new ++ drop (String.length old) s
  else match s with
       | EmptyString => EmptyString
       | String c s' => String c (Replace1 s' old new)
       end.

(** [strings.Join(elems, sep)]. *)
Fixpoint Join (elems : list string) (sep : string) : string :=
  match elems with
  | [] => ""
  | [e] => e
  | e :: rest => e ++ sep ++ Join rest sep
  end.

(** [strings.ReplaceAll(s, old, new)] for a non-empty [old]: every
    non-overlapping occurrence, left to right.  [skip] counts the bytes
    of an occurrence that are still to be passed over. *)
Fixpoint ReplaceAll_from (skip : nat) (s old new : string) : string :=
  match s with
  | EmptyString => EmptyString
  | String c s' =>
      match skip with
      | S k => ReplaceAll_from k s' old new
      | O => if HasPrefix s old
             then new ++ ReplaceAll_from (String.length old - 1) s' old new
             else String c (ReplaceAll_from O s' old new)
      end
  end.

Definition ReplaceAll (s old new : string) : string := ReplaceAll_from 0 s old new.

End strings.

(** ** The document model of kin-openapi ([openapi3]) *)

Module openapi3.

(** [openapi3.Schema] and [openapi3.SchemaRef], restricted to the fields
    the program reads or writes.  The loaded schema graph is taken to be
    a finite tree: every [SchemaRef] owns its [Schema]. *)
Inductive Schema : Type := mkSchema {
  Type_ : list string;
  Description : string;
  ReadOnly : bool;
  Discriminator : option string;
  OneOf : list SchemaRef;
  AnyOf : list SchemaRef;
  AllOf : list SchemaRef;
  Not : option SchemaRef;
  Items : option SchemaRef;
  Properties : gmap string SchemaRef;
  Required : list string }
with SchemaRef : Type := mkSchemaRef {
  Ref : string;
  Value : Schema }.

(** [openapi3.ServerVariable]. *)
Module ServerVariable.
Record t : Type := mk { Enum : list string; Default : string }.
End ServerVariable.

(** [openapi3.Server].  [Variables] is [map[string]*ServerVariable] in
    range order; a nil pointer is [None]. *)
Module Server.
Record t : Type := mk {
  URL : string;
  Variables : list (string * option ServerVariable.t) }.
End Server.

(** [openapi3.Parameter] (named [OAParameter] here, the word being a
    Rocq command).  [Schema] is nil for a parameter described by
    [content] instead of [schema]. *)
Module OAParameter.
Record t : Type := mk {
  Name : string;
  In : string;
  Description : string;
  Style : string;
  Explode : option bool;
  Required : bool;
  Schema : option SchemaRef }.
End OAParameter.

(** [openapi3.MediaType]. *)
Module MediaType.
Record t : Type := mk { Schema : option SchemaRef }.
End MediaType.

(** [openapi3.RequestBody]; [Content] is [map[string]*MediaType] in
    range order. *)
Module RequestBody.
Record t : Type := mk { Content : list (string * MediaType.t) }.
End RequestBody.

(** [openapi3.Operation]; [Servers] is a pointer to a slice. *)
Module Operation.
Record t : Type := mk {
  OperationID : string;
  Summary : string;
  Description : string;
  Servers : option (list Server.t);
  Parameters : list OAParameter.t;
  RequestBody : option RequestBody.t }.
End Operation.

(** [openapi3.PathItem]; [Operations] is the map that
    [pathItem.Operations()] returns, from HTTP method to operation, in
    range order. *)
Module PathItem.
Record t : Type := mk {
  Servers : list Server.t;
  Parameters : list OAParameter.t;
  Operations : list (string * Operation.t) }.
End PathItem.

(** [openapi3.T]; [Paths] is [t.Paths.Map()] in range order. *)
Module T.
Record t : Type := mk {
  Servers : list Server.t;
  Paths : list (string * PathItem.t) }.
End T.

End openapi3.
Import openapi3.

(** ** The operation descriptor *)

(** [Parameter] of the source (named [Param] here). *)
Module Param.
Record t : Type := mk {
  Name : string;
  Style : string;
  Explode : option bool }.
End Param.

Module OperationInfo.
Record t : Type := mk {
  Server : string;
  Path : string;
  Method : string;
  BodyContentMIME : string;
  QueryParams : list Param.t;
  PathParams : list Param.t;
  HeaderParams : list Param.t;
  CookieParams : list Param.t }.

(** [OperationInfo{}]. *)
Definition zero : t := mk "" "" "" "" [] [] [] [].
End OperationInfo.

Definition supportedMIMETypes : list string :=
  ["application/json"; "application/x-www-form-urlencoded"; "multipart/form-data"].

(** [slices.Contains] on strings. *)
Definition slices_Contains (l : list string) (x : string) : bool :=
  existsb (String.eqb x) l.

(** ** Server resolution ([parseServer]) *)

(** One iteration of the loop over [server.Variables]. *)
Definition substituteVariable (s : string)
    (entry : string * option ServerVariable.t) : string :=
  let '(name, variable) := entry in
  match variable with
  | None => s
  | Some variable =>
      if negb (String.eqb (ServerVariable.Default variable) "")
      then strings.Replace1 s ("{" ++ name ++ "}") (ServerVariable.Default variable)
      else match ServerVariable.Enum variable with
           | e0 :: _ => strings.Replace1 s ("{" ++ name ++ "}") e0
           | [] => s
           end
  end.

(** The value of [s] when the loop over [server.Variables] is left. *)
Definition substituteVariables (server : Server.t) : string :=
  fold_left substituteVariable (Server.Variables server) (Server.URL server).

Definition parseServer (server : Server.t) : outcome string :=
  let s := substituteVariables server in
  if negb (strings.HasPrefix s "http")
  then Fail (InvalidServerURL s)
  else Ret s.

(** The substitution of the design document: every occurrence of a
    variable's token is replaced.  It differs from [substituteVariable]
    only in using [ReplaceAll]. *)
Definition substituteVariable_every (s : string)
    (entry : string * option ServerVariable.t) : string :=
  let '(name, variable) := entry in
  match variable with
  | None => s
  | Some variable =>
      if negb (String.eqb (ServerVariable.Default variable) "")
      then strings.ReplaceAll s ("{" ++ name ++ "}") (ServerVariable.Default variable)
      else match ServerVariable.Enum variable with
           | e0 :: _ => strings.ReplaceAll s ("{" ++ name ++ "}") e0
           | [] => s
           end
  end.

(** The value the loop body substitutes for a variable, when it has one. *)
Definition substitutedValue (variable : ServerVariable.t) : option string :=
  if negb (String.eqb (ServerVariable.Default variable) "")
  then Some (ServerVariable.Default variable)
  else head (ServerVariable.Enum variable).

(** ** Reference stripping ([removeRefs]) *)

(** [removeRefs] on a non-nil [*SchemaRef]: the reference text and the
    discriminator are cleared, in the node and below it. *)
Fixpoint removeRefs_nonnil (r : SchemaRef) : SchemaRef :=
  match r with
  | mkSchemaRef _ v =>
      mkSchemaRef ""
        match v with
        | mkSchema ty descr ro _ oneOf anyOf allOf not items props req =>
            mkSchema ty descr ro None
              (List.map removeRefs_nonnil oneOf)
              (List.map removeRefs_nonnil anyOf)
              (List.map removeRefs_nonnil allOf)
              (option_map removeRefs_nonnil not)
              (option_map removeRefs_nonnil items)
              (removeRefs_nonnil <$> props)
              req
        end
  end.

(** [removeRefs]: a nil argument is returned as it is. *)
Definition removeRefs (r : option SchemaRef) : option SchemaRef :=
  option_map removeRefs_nonnil r.

(** ** Schema extraction ([GetSchema]) *)

(** Field updates on [Schema]. *)
Definition set_Description (d : string) (s : Schema) : Schema :=
  mkSchema (Type_ s) d (ReadOnly s) (Discriminator s) (OneOf s) (AnyOf s)
    (AllOf s) (Not s) (Items s) (Properties s) (Required s).

Definition set_Properties (ps : gmap string SchemaRef) (s : Schema) : Schema :=
  mkSchema (Type_ s) (Description s) (ReadOnly s) (Discriminator s) (OneOf s)
    (AnyOf s) (AllOf s) (Not s) (Items s) ps (Required s).

Definition set_Required (req : list string) (s : Schema) : Schema :=
  mkSchema (Type_ s) (Description s) (ReadOnly s) (Discriminator s) (OneOf s)
    (AnyOf s) (AllOf s) (Not s) (Items s) (Properties s) req.

(** The initial value of [arguments]. *)
Definition arguments0 : Schema :=
  mkSchema ["object"] "" false None [] [] [] None None ∅ [].

(** The schema stored for a parameter: references stripped, and the
    parameter's description used when the schema has none.  [None] is the
    nil dereference of [param.Value.Schema.Value]. *)
Definition parameterArg (param : OAParameter.t) : option Schema :=
  match removeRefs (OAParameter.Schema param) with
  | None => None
  | Some r =>
      let arg := Value r in
      Some (if String.eqb (Description arg) ""
            then set_Description (OAParameter.Description param) arg
            else arg)
  end.

(** The bucketing [switch param.Value.In]. *)
Definition saveParameter (info : OperationInfo.t) (in_ : string) (p : Param.t)
    : OperationInfo.t :=
  let '(OperationInfo.mk server path method mime qs ps hs cs) := info in
  if String.eqb in_ "query" then OperationInfo.mk server path method mime (qs ++ [p]) ps hs cs
  else if String.eqb in_ "path" then OperationInfo.mk server path method mime qs (ps ++ [p]) hs cs
  else if String.eqb in_ "header" then OperationInfo.mk server path method mime qs ps (hs ++ [p]) cs
  else if String.eqb in_ "cookie" then OperationInfo.mk server path method mime qs ps hs (cs ++ [p])
  else info.

(** The body of the loop over the merged parameters. *)
Definition addParameter (st : Schema * OperationInfo.t) (param : OAParameter.t)
    : outcome (Schema * OperationInfo.t) :=
  let '(arguments, info) := st in
  match parameterArg param with
  | None => Panic
  | Some arg =>
      let name := OAParameter.Name param in
      let arguments :=
        set_Properties (<[name := mkSchemaRef "" arg]> (Properties arguments)) arguments in
      let arguments :=
        if OAParameter.Required param
        then set_Required (Required arguments ++ [name]) arguments
        else arguments in
      let p := Param.mk name (OAParameter.Style param) (OAParameter.Explode param) in
      Ret (arguments, saveParameter info (OAParameter.In param) p)
  end.

Fixpoint addParameters (st : Schema * OperationInfo.t) (params : list OAParameter.t)
    : outcome (Schema * OperationInfo.t) :=
  match params with
  | [] => Ret st
  | param :: rest => st' ← addParameter st param; addParameters st' rest
  end.

Definition set_BodyContentMIME (mime : string) (info : OperationInfo.t) : OperationInfo.t :=
  let '(OperationInfo.mk server path method _ qs ps hs cs) := info in
  OperationInfo.mk server path method mime qs ps hs cs.

(** The schema stored for the request body: references stripped and the
    read-only properties deleted. *)
Definition bodyArg (content : MediaType.t) : option Schema :=
  match removeRefs (MediaType.Schema content) with
  | None => None
  | Some r =>
      let arg := Value r in
      Some (set_Properties
              (filter (fun kv : string * SchemaRef => ReadOnly (Value kv.2) = false)
                 (Properties arg))
              arg)
  end.

(** The loop over [operation.RequestBody.Value.Content]: unsupported MIME
    types are skipped, the first supported one is taken and ends the loop. *)
Fixpoint selectBody (st : Schema * OperationInfo.t)
    (content : list (string * MediaType.t)) : outcome (Schema * OperationInfo.t) :=
  match content with
  | [] => Ret st
  | (mime, media) :: rest =>
      if negb (slices_Contains supportedMIMETypes mime) then selectBody st rest
      else
        let '(arguments, info) := st in
        match bodyArg media with
        | None => Panic
        | Some arg =>
            let arguments :=
              set_Properties
                (<["requestBodyContent" := mkSchemaRef "" arg]> (Properties arguments))
                arguments in
            let arguments :=
              set_Required (Required arguments ++ ["requestBodyContent"]) arguments in
            Ret (arguments, set_BodyContentMIME mime info)
        end
  end.

(** The request-body part of [GetSchema]. *)
Definition addRequestBody (operationID : string) (st : Schema * OperationInfo.t)
    (body : option RequestBody.t) : outcome (Schema * OperationInfo.t) :=
  match body with
  | None => Ret st
  | Some rb =>
      st' ← selectBody st (RequestBody.Content rb);
      if String.eqb (OperationInfo.BodyContentMIME st'.2) ""
      then Fail (UnsupportedBodyMIME operationID)
      else Ret st'
  end.

(** What [GetSchema] does once [operation] under [path] and [method]
    matched, [pathItem] being its path item and [pathServer] the server
    resolved so far. *)
Definition extractOperation (operationID path method pathServer : string)
    (pathItem : PathItem.t) (operation : Operation.t)
    : outcome (Schema * OperationInfo.t) :=
  operationServer ←
    match Operation.Servers operation with
    | Some (server :: _) => parseServer server
    | _ => Ret pathServer
    end;
  let info := OperationInfo.mk operationServer path method "" [] [] [] [] in
  st ← addParameters (arguments0, info)
         (Operation.Parameters operation ++ PathItem.Parameters pathItem);
  addRequestBody operationID st (Operation.RequestBody operation).

(** The inner loop: the first visited operation whose identifier matches. *)
Definition matches (operationID : string) (entry : string * Operation.t) : bool :=
  String.eqb (Operation.OperationID entry.2) operationID.

(** The loop over [t.Paths.Map()].  [Ret None] is the final return, with
    [found = false] and a nil error. *)
Fixpoint scanPaths (operationID defaultServer : string)
    (paths : list (string * PathItem.t)) : outcome (option (Schema * OperationInfo.t)) :=
  match paths with
  | [] => Ret None
  | (path, pathItem) :: rest =>
      pathServer ←
        match PathItem.Servers pathItem with
        | server :: _ => parseServer server
        | [] => Ret defaultServer
        end;
      match List.find (matches operationID) (PathItem.Operations pathItem) with
      | Some (method, operation) =>
          r ← extractOperation operationID path method pathServer pathItem operation;
          Ret (Some r)
      | None => scanPaths operationID defaultServer rest
      end
  end.

(** [GetSchema] on a loaded document.  The JSON text of the schema is
    represented by the schema itself; [Ret (Some _)] is [found = true],
    [Ret None] is [found = false] with a nil error. *)
Definition GetSchema_doc (operationID : string) (t : T.t)
    : outcome (option (Schema * OperationInfo.t)) :=
  defaultServer ←
    match T.Servers t with
    | server :: _ => parseServer server
    | [] => Ret ""
    end;
  scanPaths operationID defaultServer (T.Paths t).

(** ** Values read from the payload ([gjson]) *)

Module gjson.

(** [gjson.Result].  [Absent] is the zero [Result] that [Get] returns
    for a path with no match.  A number carries the text its [String]
    method yields.  An array or object carries its raw JSON text; the
    members of an object are the entries of [Map()] in range order. *)
Inductive Result : Type :=
| Absent
| JNull
| JFalse
| JTrue
| JNumber (str : string)
| JString (str : string)
| JArray (raw : string) (elems : list Result)
| JObject (raw : string) (members : list (string * Result)).

Definition Exists (t : Result) : bool :=
  match t with Absent => false | _ => true end.

Definition IsArray (t : Result) : bool :=
  match t with JArray _ _ => true | _ => false end.

Definition IsObject (t : Result) : bool :=
  match t with JObject _ _ => true | _ => false end.

(** [Result.String()]. *)
Definition Str (t : Result) : string :=
  match t with
  | Absent | JNull => ""
  | JFalse => "false"
  | JTrue => "true"
  | JNumber str => str
  | JString str => str
  | JArray raw _ => raw
  | JObject raw _ => raw
  end.

(** [Result.Array()], called on arrays only. *)
Definition Array (t : Result) : list Result :=
  match t with JArray _ elems => elems | _ => [] end.

(** [Result.Map()], called on objects only. *)
Definition Map (t : Result) : list (string * Result) :=
  match t with JObject _ members => members | _ => [] end.

End gjson.

(** ** The [net/url] package *)

Module url.

(** [url.Values], a [map[string][]string]. *)
Abbreviation Values := (gmap string (list string)).

(** [Values.Add(key, value)]. *)
Definition Add (q : Values) (key value : string) : Values :=
  <[key := default [] (q !! key) ++ [value]]> q.

Definition upperhex (n : nat) : ascii :=
  List.nth n (list_ascii_of_string "0123456789ABCDEF") "0"%char.

(** The bytes [QueryEscape] leaves as they are: letters, digits and
    [-], [_], [.], [~]. *)
Definition unreserved (c : ascii) : bool :=
  let n := nat_of_ascii c in
  ((48 <=? n)%nat && (n <=? 57)%nat) || ((65 <=? n)%nat && (n <=? 90)%nat)
  || ((97 <=? n)%nat && (n <=? 122)%nat)
  || Ascii.eqb c "-" || Ascii.eqb c "_" || Ascii.eqb c "." || Ascii.eqb c "~".

(** [url.QueryEscape]. *)
Fixpoint QueryEscape (s : string) : string :=
  match s with
  | EmptyString => EmptyString
  | String c s' =>
      if Ascii.eqb c " " then String "+" (QueryEscape s')
      else if unreserved c then String c (QueryEscape s')
      else String "%" (String (upperhex (nat_of_ascii c / 16))
                         (String (upperhex (nat_of_ascii c mod 16)) (QueryEscape s')))
  end.

(** The keys of [q] in increasing byte order ([sort.Strings]). *)
Definition sortedKeys (q : Values) : list string :=
  merge_sort (fun a b => Is_true (String.leb a b)) (map_to_list q).*1.

(** [Values.Encode()]: the pairs [key=value], sorted by key, escaped and
    joined by [&]. *)
Definition Encode (q : Values) : string :=
  strings.Join
    (flat_map (fun k => List.map (fun v => (QueryEscape k ++ "=" ++ QueryEscape v)%string)
                          (default [] (q !! k)))
       (sortedKeys q))
    "&".

(** [url.URL]: the query text, and everything else of the URL. *)
Module URL.
Record t : Type := mk { Location : string; RawQuery : string }.
End URL.

End url.

(** ** The [net/http] request *)

Module http.

(** [http.Cookie], its [Name] and [Value]. *)
Module Cookie.
Record t : Type := mk { Name : string; Value : string }.
End Cookie.

(** [http.Request].  [Cookies] lists the [AddCookie] calls in order;
    [Body] is the content of the buffer handed to the request. *)
Module Request.
Record t : Type := mk {
  Method : string;
  URL : url.URL.t;
  Header : gmap string (list string);
  Cookies : list Cookie.t;
  Body : option string }.
End Request.

Module Response.
Record t : Type := mk { Body : string }.
End Response.

End http.

Definition set_RawQuery (rawQuery : string) (req : http.Request.t) : http.Request.t :=
  let '(http.Request.mk method u header cookies body) := req in
  http.Request.mk method (url.URL.mk (url.URL.Location u) rawQuery) header cookies body.

Definition set_Header (header : gmap string (list string)) (req : http.Request.t)
    : http.Request.t :=
  let '(http.Request.mk method u _ cookies body) := req in
  http.Request.mk method u header cookies body.

Definition set_Body (body : string) (req : http.Request.t) : http.Request.t :=
  let '(http.Request.mk method u header cookies _) := req in
  http.Request.mk method u header cookies (Some body).

(** [req.AddCookie]. *)
Definition AddCookie (req : http.Request.t) (c : http.Cookie.t) : http.Request.t :=
  let '(http.Request.mk method u header cookies body) := req in
  http.Request.mk method u header (cookies ++ [c]) body.

(** ** The libraries and the environment

    What the program obtains from outside: the document loader, the schema
    validator, [gjson.Get], URL parsing, the process environment, the
    encoders and the HTTP transport.  A library call that returns a
    non-nil error is [None]. *)
Class Externals : Type := {
  LoadFromFile : string -> option T.t;
  Validate : Schema -> string -> option bool;
  gjson_Get : string -> string -> gjson.Result;
  url_JoinPath : string -> string -> option string;
  url_Parse : string -> option url.URL.t;
  URL_String : url.URL.t -> string;
  url_ParseQuery : string -> url.Values;
  http_NewRequest : string -> string -> option http.Request.t;
  CanonicalHeaderKey : string -> string;
  Getenv : string -> string;
  json_Encode : option gjson.Result -> option string;
  FormDataContentType : string;
  multipart_WriteField : string -> string -> option string;
  multipart_Close : option string;
  http_Do : http.Request.t -> option http.Response.t;
  io_ReadAll : http.Response.t -> option string }.

(** A library error, turned into the error the caller returns. *)
Definition orFail {A : Type} (e : error) (r : option A) : outcome A :=
  match r with
  | Some a => Ret a
  | None => Fail e
  end.

(** ** Request compilation *)

(** [param.Explode == nil || !*param.Explode]: not exploded, the default
    being not to explode. *)
Definition notExploded (explode : option bool) : bool :=
  match explode with
  | None => true
  | Some b => negb b
  end.

(** [param.Explode == nil || *param.Explode]: exploded, the default being
    to explode. *)
Definition exploded (explode : option bool) : bool :=
  match explode with
  | None => true
  | Some b => b
  end.

(** [strings.Replace(path, "{"+name+"}", value, 1)]. *)
Definition replacePlaceholder (path name value : string) : string :=
  strings.Replace1 path ("{" ++ name ++ "}") value.

(** [append(strs, k, v.String())] over the members of an object. *)
Definition keysAndValues (members : list (string * gjson.Result)) : list string :=
  flat_map (fun kv : string * gjson.Result => [kv.1; gjson.Str kv.2]) members.

(** [append(strs, k+"="+v.String())] over the members of an object. *)
Definition keyEqualsValue (members : list (string * gjson.Result)) : list string :=
  List.map (fun kv : string * gjson.Result => (kv.1 ++ "=" ++ gjson.Str kv.2)%string) members.

(** The body of the loop of [handlePathParameters], [res] being
    [gjson.Get(input, param.Name)]. *)
Definition pathParameter (path : string) (param : Param.t) (res : gjson.Result) : string :=
  let name := Param.Name param in
  let style := Param.Style param in
  let explode := Param.Explode param in
  if negb (gjson.Exists res) then path
  else if gjson.IsArray res then
    let strs := List.map gjson.Str (gjson.Array res) in
    if String.eqb style "simple" || String.eqb style "" then
      replacePlaceholder path name (strings.Join strs ",")
    else if String.eqb style "label" then
      if notExploded explode
      then replacePlaceholder path name ("." ++ strings.Join strs ",")
      else replacePlaceholder path name ("." ++ strings.Join strs ".")
    else if String.eqb style "matrix" then
      if notExploded explode
      then replacePlaceholder path name (";" ++ name ++ "=" ++ strings.Join strs ",")
      else replacePlaceholder path name
             (fold_left (fun s str => (s ++ ";" ++ name ++ "=" ++ str)%string) strs "")
    else path
  else if gjson.IsObject res then
    let members := gjson.Map res in
    if String.eqb style "simple" || String.eqb style "" then
      if notExploded explode
      then replacePlaceholder path name (strings.Join (keysAndValues members) ",")
      else replacePlaceholder path name (strings.Join (keyEqualsValue members) ",")
    else if String.eqb style "label" then
      if notExploded explode
      then replacePlaceholder path name ("." ++ strings.Join (keysAndValues members) ",")
      else replacePlaceholder path name
             (fold_left (fun s (kv : string * gjson.Result) =>
                           (s ++ "." ++ kv.1 ++ "=" ++ gjson.Str kv.2)%string) members "")
    else if String.eqb style "matrix" then
      if notExploded explode
      then replacePlaceholder path name
             (";" ++ name ++ "=" ++ strings.Join (keysAndValues members) ",")
      else replacePlaceholder path name
             (fold_left (fun s (kv : string * gjson.Result) =>
                           (s ++ ";" ++ kv.1 ++ "=" ++ gjson.Str kv.2)%string) members "")
    else path
  else
    if String.eqb style "simple" || String.eqb style "" then
      replacePlaceholder path name (gjson.Str res)
    else if String.eqb style "label" then
      replacePlaceholder path name ("." ++ gjson.Str res)
    else if String.eqb style "matrix" then
      replacePlaceholder path name (";" ++ name ++ "=" ++ gjson.Str res)
    else path.

(** [q.Add(param.Name, item.String())] for each item of an array. *)
Definition addItems (q : url.Values) (name : string) (items : list gjson.Result)
    : url.Values :=
  fold_left (fun q item => url.Add q name (gjson.Str item)) items q.

(** The non-exploded form shared by the three array styles of a query
    parameter, [sep] being the separator of the style. *)
Definition queryArray (q : url.Values) (param : Param.t) (res : gjson.Result)
    (sep : string) : url.Values :=
  if exploded (Param.Explode param)
  then addItems q (Param.Name param) (gjson.Array res)
  else url.Add q (Param.Name param)
         (strings.Join (List.map gjson.Str (gjson.Array res)) sep).

(** The body of the loop of [handleQueryParameters], [res] being
    [gjson.Get(input, param.Name)]. *)
Definition queryParameter (q : url.Values) (param : Param.t) (res : gjson.Result)
    : url.Values :=
  let name := Param.Name param in
  let style := Param.Style param in
  if negb (gjson.Exists res) then q
  else if gjson.IsArray res then
    if String.eqb style "form" || String.eqb style "" then queryArray q param res ","
    else if String.eqb style "spaceDelimited" then queryArray q param res " "
    else if String.eqb style "pipeDelimited" then queryArray q param res "|"
    else q
  else if gjson.IsObject res then
    let members := gjson.Map res in
    if String.eqb style "form" || String.eqb style "" then
      if exploded (Param.Explode param)
      then fold_left (fun q (kv : string * gjson.Result) =>
                        url.Add q kv.1 (gjson.Str kv.2)) members q
      else url.Add q name (strings.Join (keysAndValues members) ",")
    else if String.eqb style "deepObject" then
      fold_left (fun q (kv : string * gjson.Result) =>
                   url.Add q (name ++ "[" ++ kv.1 ++ "]") (gjson.Str kv.2)) members q
    else q
  else url.Add q name (gjson.Str res).

(** The value [handleHeaderParameters] adds for a parameter. *)
Definition headerValue (param : Param.t) (res : gjson.Result) : string :=
  if gjson.IsArray res then strings.Join (List.map gjson.Str (gjson.Array res)) ","
  else if gjson.IsObject res then
    if notExploded (Param.Explode param)
    then strings.Join (keysAndValues (gjson.Map res)) ","
    else strings.Join (keyEqualsValue (gjson.Map res)) ","
  else gjson.Str res.

(** The value [handleCookieParameters] gives the cookie of a parameter. *)
Definition cookieValue (res : gjson.Result) : string :=
  if gjson.IsArray res then strings.Join (List.map gjson.Str (gjson.Array res)) ","
  else if gjson.IsObject res then strings.Join (keysAndValues (gjson.Map res)) ","
  else gjson.Str res.

Section Compile.
Context `{Externals}.

(** [Header.Add] and [Header.Set] of [net/http]. *)
Definition Header_Add (h : gmap string (list string)) (key value : string)
    : gmap string (list string) :=
  <[CanonicalHeaderKey key := default [] (h !! CanonicalHeaderKey key) ++ [value]]> h.

Definition Header_Set (h : gmap string (list string)) (key value : string)
    : gmap string (list string) :=
  <[CanonicalHeaderKey key := [value]]> h.

Definition handlePathParameters (path : string) (params : list Param.t)
    (input : string) : string :=
  fold_left (fun path param => pathParameter path param (gjson_Get input (Param.Name param)))
    params path.

Definition handleQueryParameters (q : url.Values) (params : list Param.t)
    (input : string) : url.Values :=
  fold_left (fun q param => queryParameter q param (gjson_Get input (Param.Name param)))
    params q.

(** [req.Header.Add(key, value)]. *)
Definition addHeader (req : http.Request.t) (key value : string) : http.Request.t :=
  set_Header (Header_Add (http.Request.Header req) key value) req.

(** The body of the loop of [handleHeaderParameters]. *)
Definition headerParameter (req : http.Request.t) (param : Param.t)
    (res : gjson.Result) : http.Request.t :=
  if gjson.Exists res
  then addHeader req (Param.Name param) (headerValue param res)
  else req.

Definition handleHeaderParameters (req : http.Request.t) (params : list Param.t)
    (input : string) : http.Request.t :=
  fold_left
    (fun req param => headerParameter req param (gjson_Get input (Param.Name param)))
    params req.

(** The body of the loop of [handleCookieParameters]. *)
Definition cookieParameter (req : http.Request.t) (param : Param.t)
    (res : gjson.Result) : http.Request.t :=
  if gjson.Exists res
  then AddCookie req (http.Cookie.mk (Param.Name param) (cookieValue res))
  else req.

Definition handleCookieParameters (req : http.Request.t) (params : list Param.t)
    (input : string) : http.Request.t :=
  fold_left
    (fun req param => cookieParameter req param (gjson_Get input (Param.Name param)))
    params req.

(** The loop writing one multipart field per member; the result is the
    content of the buffer. *)
Fixpoint writeFields (body : string) (members : list (string * gjson.Result))
    : outcome string :=
  match members with
  | [] => Ret body
  | (k, v) :: rest =>
      part ← orFail WriteFieldError (multipart_WriteField k (gjson.Str v));
      writeFields (body ++ part) rest
  end.

(** The request-body stage of [Run] (the statement
    [if opInfo.BodyContentMIME != ""]). *)
Definition handleBody (req : http.Request.t) (mime args : string)
    : outcome http.Request.t :=
  if String.eqb mime "" then Ret req
  else
    let res := gjson_Get args "requestBodyContent" in
    if String.eqb mime "application/json" then
      body ← orFail EncodeJSONError
               (json_Encode (if gjson.Exists res then Some res else None));
      Ret (set_Body body
             (set_Header (Header_Set (http.Request.Header req) "Content-Type" "application/json")
                req))
    else if String.eqb mime "text/plain" then
      let reqBody := if gjson.Exists res then gjson.Str res else "" in
      Ret (set_Body reqBody
             (set_Header (Header_Set (http.Request.Header req) "Content-Type" "text/plain")
                req))
    else if String.eqb mime "multipart/form-data" then
      let req := set_Header (Header_Set (http.Request.Header req) "Content-Type"
                               FormDataContentType) req in
      if gjson.Exists res && gjson.IsObject res then
        body ← writeFields "" (gjson.Map res);
        closing ← orFail CloseWriterError multipart_Close;
        Ret (set_Body (body ++ closing) req)
      else Fail InvalidBodyShape
    else Fail (UnsupportedMIME mime).

Definition GetSchema (operationID file : string)
    : outcome (option (Schema * OperationInfo.t)) :=
  match LoadFromFile file with
  | None => Fail (DocumentLoadError file)
  | Some t => GetSchema_doc operationID t
  end.

(** [Run] up to the point where the request is handed to the HTTP
    client.  [Ret None] is the return for an operation that the document
    does not have. *)
Definition Run_request (operationID file args : string)
    : outcome (option http.Request.t) :=
  let args := if String.eqb args "" then "{}" else args in
  r ← GetSchema operationID file;
  match r with
  | None => Ret None
  | Some (schema, opInfo) =>
      valid ← orFail ValidatorError (Validate schema args);
      if negb valid then Fail (ValidationError operationID)
      else
        let path := handlePathParameters (OperationInfo.Path opInfo)
                      (OperationInfo.PathParams opInfo) args in
        joined ← orFail JoinPathError (url_JoinPath (OperationInfo.Server opInfo) path);
        u ← orFail (ParseURLError (OperationInfo.Server opInfo ++ path)) (url_Parse joined);
        req ← orFail NewRequestError
                (http_NewRequest (OperationInfo.Method opInfo) (URL_String u));
        let req :=
          if negb (String.eqb (Getenv "OPENAPI_BEARER") "")
          then set_Header (Header_Set (http.Request.Header req) "Authorization"
                             ("Bearer " ++ Getenv "OPENAPI_BEARER")) req
          else req in
        let q := url_ParseQuery (url.URL.RawQuery (http.Request.URL req)) in
        let req :=
          set_RawQuery
            (url.Encode (handleQueryParameters q (OperationInfo.QueryParams opInfo) args))
            req in
        let req :=
          if negb (String.eqb (Getenv "OPENAPI_QUERY_KEY") "")
          then set_RawQuery
                 (url.URL.RawQuery (http.Request.URL req) ++ "&" ++ "key="
                  ++ url.QueryEscape (Getenv "OPENAPI_QUERY_KEY")) req
          else req in
        let req := handleHeaderParameters req (OperationInfo.HeaderParams opInfo) args in
        let req := handleCookieParameters req (OperationInfo.CookieParams opInfo) args in
        req ← handleBody req (OperationInfo.BodyContentMIME opInfo) args;
        Ret (Some req)
  end.

(** [Run]: the requests handed to the HTTP client, and what is returned.
    [Ret None] is [found = false] with a nil error, [Ret (Some body)] is
    [found = true] with the response body. *)
Definition Run (operationID file args : string)
    : list http.Request.t * outcome (option string) :=
  match Run_request operationID file args with
  | Ret None => ([], Ret None)
  | Ret (Some req) =>
      ([req],
       resp ← orFail TransportError (http_Do req);
       result ← orFail ReadResponseError (io_ReadAll resp);
       Ret (Some result))
  | Fail e => ([], Fail e)
  | Panic => ([], Panic)
  end.

End Compile.

(** ** A concrete setting for examples

    One document on disk, one payload text, one environment.  The library
    functions are given the behaviour they have on the simple inputs of the
    examples: absolute server URLs without a query, parameter names that
    are plain keys, printable ASCII values. *)
Module Setting.

(** The member of a top-level object under a plain key. *)
Definition member (name : string) (members : list (string * gjson.Result))
    : gjson.Result :=
  match List.find (fun kv : string * gjson.Result => String.eqb kv.1 name) members with
  | Some kv => kv.2
  | None => gjson.Absent
  end.

(** A validator that enforces [required]; the schemas of the examples
    constrain nothing else. *)
Definition validateRequired (get : string -> string -> gjson.Result)
    (schema : Schema) (args : string) : option bool :=
  Some (forallb (fun name => gjson.Exists (get args name)) (Required schema)).

Definition crlf : string := String "013" (String "010" "").

(** A double quote, and a quoted string, for writing JSON text. *)
Definition dq : string := String "034" "".
Definition quoted (s : string) : string := dq ++ s ++ dq.

(** The part that [WriteField] writes when the boundary is [b]. *)
Definition part (k v : string) : string :=
  "--b" ++ crlf ++ "Content-Disposition: form-data; name=" ++ quoted k ++ crlf
  ++ crlf ++ v ++ crlf.

(** The JSON text of a value, and the array and the object with given
    elements, carrying the compact JSON text that denotes them. *)
Definition text (v : gjson.Result) : string :=
  match v with
  | gjson.Absent => ""
  | gjson.JNull => "null"
  | gjson.JString str => quoted str
  | _ => gjson.Str v
  end.

Definition arr (elems : list gjson.Result) : gjson.Result :=
  gjson.JArray ("[" ++ strings.Join (List.map text elems) "," ++ "]") elems.

Definition obj (members : list (string * gjson.Result)) : gjson.Result :=
  gjson.JObject
    ("{" ++ strings.Join
              (List.map (fun kv : string * gjson.Result =>
                           (quoted kv.1 ++ ":" ++ text kv.2)%string) members) ","
     ++ "}")
    members.

(** The setting in which every file holds [t], the payload text is the
    raw text of [payload] and the environment is [env]. *)
Definition world (t : T.t) (payload : gjson.Result) (env : string -> string)
    : Externals :=
  let get := fun args name : string =>
    if String.eqb args (gjson.Str payload)
    then member name (gjson.Map payload)
    else gjson.Absent in
  {| LoadFromFile := fun _ => Some t;
     Validate := validateRequired get;
     gjson_Get := get;
     url_JoinPath := fun server path => Some (server ++ path)%string;
     url_Parse := fun s => Some (url.URL.mk s "");
     URL_String := url.URL.Location;
     url_ParseQuery := fun _ => ∅;
     http_NewRequest := fun method u =>
       Some (http.Request.mk method (url.URL.mk u "") ∅ [] None);
     CanonicalHeaderKey := fun key => key;
     Getenv := env;
     json_Encode := fun v =>
       Some (match v with Some r => text r | None => "{}" end ++ String "010" "")%string;
     FormDataContentType := "multipart/form-data; boundary=b";
     multipart_WriteField := fun k v => Some (part k v);
     multipart_Close := Some ("--b--" ++ crlf)%string;
     http_Do := fun _ => Some (http.Response.mk "ok");
     io_ReadAll := fun resp => Some (http.Response.Body resp) |}.

(** An environment in which only [OPENAPI_QUERY_KEY] is set, to [v]. *)
Definition queryKeyEnv (v : string) : string -> string :=
  fun name => if String.eqb name "OPENAPI_QUERY_KEY" then v else "".

(** An environment with no variable set. *)
Definition noenv : string -> string := fun _ => "".

(** A schema that constrains nothing. *)
Definition anySchema : SchemaRef :=
  mkSchemaRef "" (mkSchema [] "" false None [] [] [] None None ∅ []).

(** A document with one operation [operationID], [POST /pets], whose
    request body is declared under the MIME type [mime] alone. *)
Definition bodyDoc (operationID mime : string) : T.t :=
  T.mk [Server.mk "https://api.example.com" []]
    [("/pets",
      PathItem.mk [] []
        [("POST",
          Operation.mk operationID "" "" None []
            (Some (RequestBody.mk [(mime, MediaType.mk (Some anySchema))])))])].

(** A document with one operation [listPets], [GET /pets], under the
    server URL [serverURL]. *)
Definition listPetsDoc (serverURL : string) : T.t :=
  T.mk [Server.mk serverURL []]
    [("/pets",
      PathItem.mk [] []
        [("GET", Operation.mk "listPets" "" "" None [] None)])].

(** A parameter [name] in location [in_] with the given style. *)
Definition param (name in_ style : string) (explode : option bool) (required : bool)
    : OAParameter.t :=
  OAParameter.mk name in_ "" style explode required (Some anySchema).


(** A document with one operation [operationID], [GET path], with
    parameters declared on the operation and on the path item. *)
Definition paramDoc (operationID path : string)
    (operationParams pathItemParams : list OAParameter.t) : T.t :=
  T.mk [Server.mk "https://api.example.com" []]
    [(path,
      PathItem.mk [] pathItemParams
        [("GET", Operation.mk operationID "" "" None operationParams None)])].

End Setting.

(** ** Predicates on documents *)

(** The document has an operation with the identifier [operationID]. *)
Definition hasOperation (operationID : string) (t : T.t) : Prop :=
  exists path pathItem method operation,
    List.In (path, pathItem) (T.Paths t)
    /\ List.In (method, operation) (PathItem.Operations pathItem)
    /\ Operation.OperationID operation = operationID.

(** The first entry of a server list, the one the program resolves,
    yields an http(s) URL. *)
Definition firstServerOK (servers : list Server.t) : bool :=
  match servers with
  | server :: _ => strings.HasPrefix (substituteVariables server) "http"
  | [] => true
  end.







(** The styles that the [switch] statements of the serialisers have a case
    for: path parameters of any shape, query arrays, query objects. *)
Definition pathStyles : list string := ["simple"; ""; "label"; "matrix"].
Definition queryArrayStyles : list string :=
  ["form"; ""; "spaceDelimited"; "pipeDelimited"].
Definition queryObjectStyles : list string := ["form"; ""; "deepObject"].

(** The record that [GetSchema] saves for a declared parameter, and the
    records of the parameters declared for the location [loc], in order of
    declaration. *)
Definition toParam (param : OAParameter.t) : Param.t :=
  Param.mk (OAParameter.Name param) (OAParameter.Style param) (OAParameter.Explode param).

Definition located (loc : string) (params : list OAParameter.t) : list Param.t :=
  List.map toParam (List.filter (fun param => String.eqb (OAParameter.In param) loc) params).

(** The string [s] contains [sub] ([strings.Contains] as a proposition). *)
Definition contains (s sub : string) : Prop :=
  exists pre post, s = (pre ++ sub ++ post)%string.

(** The query [q'] holds what [q] holds, with values possibly added after
    those of [q] under each key. *)
Definition extends (q q' : url.Values) : Prop :=
  forall key values, q !! key = Some values ->
                     exists added, q' !! key = Some (values ++ added).

(** ** Operation listing ([List]) *)

Module openapi.

(** [Operation] of the source: what is listed for an operation. *)
Module Operation.
Record t : Type := mk { Description : string; Summary : string }.
End Operation.

(** The assignment [operations[operation.OperationID] = Operation{...}] of
    the inner loop. *)
Definition addOperation (operations : gmap string Operation.t)
    (entry : string * openapi3.Operation.t) : gmap string Operation.t :=
  <[openapi3.Operation.OperationID entry.2 :=
      Operation.mk (openapi3.Operation.Description entry.2)
        (openapi3.Operation.Summary entry.2)]> operations.

(** The two loops of [List] on a loaded document; the result is the
    [Operations] map of the [OperationList]. *)
Definition List_doc (t : T.t) : gmap string Operation.t :=
  fold_left
    (fun operations (entry : string * PathItem.t) =>
       fold_left addOperation (PathItem.Operations entry.2) operations)
    (T.Paths t) ∅.

(** What [List] returns: the operation list, or the error that wraps the
    error of the loader. *)
Inductive ListResult : Type :=
| Listed (operations : gmap string Operation.t)
| FailedToLoad (file : string).

Definition List `{Externals} (file : string) : ListResult :=
  match LoadFromFile file with
  | None => FailedToLoad file
  | Some t => Listed (List_doc t)
  end.

End openapi.

(** ** The commands ([pkg/cli]) *)

Module cli.

(** The errors the commands return, each with the data of its message. *)
Inductive failure : Type :=
| NoFilesProvided
| FailedToList (file : string)
| NotEnoughArgs
| FailedToGetSchema (operationID file : string) (cause : error)
| FailedToRun (operationID file : string) (cause : error)
| NotFoundInAnyFile (operationID : string).

(** How a command ends: with a nil error, with an error, or in a panic. *)
Inductive ending : Type :=
| Done
| Failed (e : failure)
| Crashed.

Section Commands.
Context `{Externals}.

(** The loop of the [Run] method of [List]: the operation lists printed, in
    order, and the ending. *)
Fixpoint listFiles (files : list string)
    : list (gmap string openapi.Operation.t) * ending :=
  match files with
  | [] => ([], Done)
  | file :: rest =>
      match openapi.List file with
      | openapi.FailedToLoad _ => ([], Failed (FailedToList file))
      | openapi.Listed operations =>
          let '(printed, e) := listFiles rest in (operations :: printed, e)
      end
  end.

Definition List_Run (args : list string)
    : list (gmap string openapi.Operation.t) * ending :=
  match args with
  | [] => ([], Failed NoFilesProvided)
  | _ => listFiles args
  end.

(** The loop of the [Run] method of [GetSchema]: the schemas printed and the
    ending. *)
Fixpoint getSchemaFiles (operationID : string) (files : list string)
    : list Schema * ending :=
  match files with
  | [] => ([], Failed (NotFoundInAnyFile operationID))
  | file :: rest =>
      match GetSchema operationID file with
      | Fail e => ([], Failed (FailedToGetSchema operationID file e))
      | Panic => ([], Crashed)
      | Ret None => getSchemaFiles operationID rest
      | Ret (Some (schema, _)) => ([schema], Done)
      end
  end.

Definition GetSchema_Run (args : list string) : list Schema * ending :=
  match args with
  | operationID :: ((_ :: _) as files) => getSchemaFiles operationID files
  | _ => ([], Failed NotEnoughArgs)
  end.

(** The loop of the [Run] method of [Run]: the requests handed to the HTTP
    client, the outputs printed, and the ending. *)
Fixpoint runFiles (operationID input : string) (files : list string)
    : list http.Request.t * list string * ending :=
  match files with
  | [] => ([], [], Failed (NotFoundInAnyFile operationID))
  | file :: rest =>
      let '(requests, r) := Run operationID file input in
      match r with
      | Fail e => (requests, [], Failed (FailedToRun operationID file e))
      | Panic => (requests, [], Crashed)
      | Ret (Some output) => (requests, [output], Done)
      | Ret None =>
          let '(requests', printed, e) := runFiles operationID input rest in
          (requests ++ requests', printed, e)
      end
  end.

Definition Run_Run (args : list string)
    : list http.Request.t * list string * ending :=
  match args with
  | operationID :: input :: ((_ :: _) as files) => runFiles operationID input files
  | _ => ([], [], Failed NotEnoughArgs)
  end.

End Commands.

End cli.

(** ** Further predicates *)

(** The operations of a document, in the order the two loops visit them. *)
Definition allOperations (t : T.t) : list Operation.t :=
  flat_map (fun entry : string * PathItem.t =>
              List.map snd (PathItem.Operations entry.2)) (T.Paths t).

(** The server entry that counts for an operation: the first of the
    operation, else the first of the path item, else the first of the
    document. *)
Definition effectiveServer (t : T.t) (pathItem : PathItem.t) (operation : Operation.t)
    : option Server.t :=
  match Operation.Servers operation with
  | Some (server :: _) => Some server
  | _ =>
      match PathItem.Servers pathItem with
      | server :: _ => Some server
      | [] => head (T.Servers t)
      end
  end.


(** The entry listed for an operation, and the assignment of the loops of
    [List] as a function of the operation alone. *)
Definition listed (operation : Operation.t) : openapi.Operation.t :=
  openapi.Operation.mk (Operation.Description operation) (Operation.Summary operation).

Definition assign (operations : gmap string openapi.Operation.t) (operation : Operation.t)
    : gmap string openapi.Operation.t :=
  <[Operation.OperationID operation := listed operation]> operations.

(** The request of [Run] when it reaches the body stage: the request [req]
    that [http.NewRequest] returned, after the bearer token, the query
    parameters, the query key, the header parameters and the cookie
    parameters. *)
Definition prepared `{Externals} (opInfo : OperationInfo.t) (args : string)
    (req : http.Request.t) : http.Request.t :=
  let req :=
    if negb (String.eqb (Getenv "OPENAPI_BEARER") "")
    then set_Header (Header_Set (http.Request.Header req) "Authorization"
                       ("Bearer " ++ Getenv "OPENAPI_BEARER")) req
    else req in
  let q := url_ParseQuery (url.URL.RawQuery (http.Request.URL req)) in
  let req :=
    set_RawQuery
      (url.Encode (handleQueryParameters q (OperationInfo.QueryParams opInfo) args))
      req in
  let req :=
    if negb (String.eqb (Getenv "OPENAPI_QUERY_KEY") "")
    then set_RawQuery
           (url.URL.RawQuery (http.Request.URL req) ++ "&" ++ "key="
            ++ url.QueryEscape (Getenv "OPENAPI_QUERY_KEY")) req
    else req in
  let req := handleHeaderParameters req (OperationInfo.HeaderParams opInfo) args in
  handleCookieParameters req (OperationInfo.CookieParams opInfo) args.


(** The cookie [handleCookieParameters] adds for a parameter, if the
    payload has a value for it. *)
Definition cookieOf `{Externals} (input : string) (param : Param.t)
    : option http.Cookie.t :=
  let res := gjson_Get input (Param.Name param) in
  if gjson.Exists res
  then Some (http.Cookie.mk (Param.Name param) (cookieValue res))
  else None.

(** The setting [W] with the files of [disk] on disk, and no other file. *)
Definition onDisk (disk : list (string * T.t)) (W : Externals) : Externals :=
  {| LoadFromFile := fun file =>
       snd <$> List.find (fun entry : string * T.t => String.eqb entry.1 file) disk;
     Validate := @Validate W;
     gjson_Get := @gjson_Get W;
     url_JoinPath := @url_JoinPath W;
     url_Parse := @url_Parse W;
     URL_String := @URL_String W;
     url_ParseQuery := @url_ParseQuery W;
     http_NewRequest := @http_NewRequest W;
     CanonicalHeaderKey := @CanonicalHeaderKey W;
     Getenv := @Getenv W;
     json_Encode := @json_Encode W;
     FormDataContentType := @FormDataContentType W;
     multipart_WriteField := @multipart_WriteField W;
     multipart_Close := @multipart_Close W;
     http_Do := @http_Do W;
     io_ReadAll := @io_ReadAll W |}.

(** * Properties *)

Local Open Scope string_scope.
#[local] Arguments slices_Contains : simpl never.

(** ** Strings *)

Section StringFacts.

Lemma append_nil_l (s : string) : "" ++ s = s.
Proof. reflexivity. Qed.

Lemma append_cons (c : ascii) (a b : string) : String c a ++ b = String c (a ++ b).
Proof. reflexivity. Qed.

Lemma HasPrefix_app (p s : string) : strings.HasPrefix (p ++ s) p = true.
Proof.
  induction p as [|c p IH]; [reflexivity|].
  rewrite append_cons. simpl. by rewrite Ascii.eqb_refl.
Qed.

Lemma drop_app (p s : string) : strings.drop (String.length p) (p ++ s) = s.
Proof.
  induction p as [|c p IH]; [by destruct s|].
  rewrite append_cons. exact IH.
Qed.

Lemma Replace1_unfold (s old new : string) :
  strings.Replace1 s old new =
  if strings.HasPrefix s old then new ++ strings.drop (String.length old) s
  else match s with
       | EmptyString => EmptyString
       | String c s' => String c (strings.Replace1 s' old new)
       end.
Proof. by destruct s. Qed.

(** [Replace1] rewrites the leftmost occurrence: when [old] stands
    between [pre] and [post] and does not start at any earlier position,
    it is [old] there that is replaced. *)
Lemma Replace1_leftmost (pre old new post : string) :
  (forall k, k < String.length pre ->
             strings.HasPrefix (strings.drop k (pre ++ old ++ post)) old = false) ->
  strings.Replace1 (pre ++ old ++ post) old new = pre ++ new ++ post.
Proof.
  induction pre as [|c pre IH]; intros Hfirst.
  - rewrite !append_nil_l, Replace1_unfold, HasPrefix_app.
    by rewrite drop_app.
  - rewrite Replace1_unfold.
    pose proof (Hfirst 0 ltac:(simpl; lia)) as Hhead.
    change (strings.drop 0 ?x) with x in Hhead. rewrite Hhead.
    rewrite !append_cons. f_equal. apply IH.
    intros k Hk. apply (Hfirst (S k)). simpl. lia.
Qed.

Lemma HasPrefix_https (s : string) :
  strings.HasPrefix s "https" = true -> strings.HasPrefix s "http" = true.
Proof.
  destruct s as [|c1 [|c2 [|c3 [|c4 [|c5 s]]]]]; simpl; try done;
    repeat (case_match; try done).
Qed.

Lemma append_assoc (a b c : string) : (a ++ b) ++ c = a ++ (b ++ c).
Proof.
  induction a as [|x a IH]; [reflexivity|].
  rewrite !append_cons. by rewrite IH.
Qed.

Lemma append_nil_r (s : string) : s ++ "" = s.
Proof.
  induction s as [|x s IH]; [reflexivity|].
  rewrite append_cons. by rewrite IH.
Qed.

Lemma Join_cons (e e' : string) (rest : list string) (sep : string) :
  strings.Join (e :: e' :: rest) sep = e ++ sep ++ strings.Join (e' :: rest) sep.
Proof. reflexivity. Qed.

Lemma contains_prepend (s sub pre : string) : contains s sub -> contains (pre ++ s) sub.
Proof.
  intros (a & b & ->). exists (pre ++ a), b. by rewrite append_assoc.
Qed.

(** An element of the joined list occurs in the result. *)
Lemma Join_contains (before : list string) : forall (x : string) (after : list string) sep,
  contains (strings.Join (before ++ x :: after)%list sep) x.
Proof.
  induction before as [|e before IH]; intros x after sep.
  - destruct after as [|y after].
    + exists "", "". simpl. by rewrite append_nil_l, append_nil_r.
    + exists "", (sep ++ strings.Join (y :: after) sep). by rewrite append_nil_l.
  - change ((e :: before) ++ x :: after)%list with (e :: (before ++ x :: after))%list.
    destruct (before ++ x :: after)%list as [|e' rest] eqn:Hrest.
    + by destruct before.
    + rewrite Join_cons. rewrite <- Hrest.
      apply contains_prepend, contains_prepend, IH.
Qed.

(** Two neighbours of the joined list occur in the result with the
    separator between them. *)
Lemma Join_contains_neighbours (before : list string) :
  forall (x y : string) (after : list string) sep,
    contains (strings.Join (before ++ x :: y :: after)%list sep) (x ++ sep ++ y).
Proof.
  induction before as [|e before IH]; intros x y after sep.
  - change ([] ++ x :: y :: after)%list with (x :: y :: after). rewrite Join_cons.
    destruct after as [|z after].
    + exists "", "". simpl. by rewrite append_nil_l, append_nil_r.
    + rewrite Join_cons. exists "", (sep ++ strings.Join (z :: after) sep).
      rewrite append_nil_l. by rewrite !append_assoc.
  - change ((e :: before) ++ x :: y :: after)%list
      with (e :: (before ++ x :: y :: after))%list.
    destruct (before ++ x :: y :: after)%list as [|e' rest] eqn:Hrest.
    + by destruct before.
    + rewrite Join_cons. rewrite <- Hrest.
      apply contains_prepend, contains_prepend, IH.
Qed.

End StringFacts.

(** ** Server resolution *)

(** C2, as amended: for every server entry and every declared variable that has
    a default or an enumerated value, the resolution loop replaces the leftmost
    occurrence of the token [{variableName}] in the URL, as rewritten by the
    variables visited before it, with the variable's default, or with its first
    enumerated value when it has no default; the remaining variables are then
    applied to that result. *)
Theorem parseServer_replaces_leftmost_token
    (url : string) (before after : list (string * option ServerVariable.t))
    (name : string) (variable : ServerVariable.t) (value pre post : string) :
  substitutedValue variable = Some value ->
  fold_left substituteVariable before url = pre ++ ("{" ++ name ++ "}") ++ post ->
  (forall k, k < String.length pre ->
     strings.HasPrefix (strings.drop k (pre ++ ("{" ++ name ++ "}") ++ post))
       ("{" ++ name ++ "}") = false) ->
  substituteVariables (Server.mk url (before ++ (name, Some variable) :: after)%list)
  = fold_left substituteVariable after (pre ++ value ++ post).
Proof.
  intros Hvalue Hurl Hfirst.
  unfold substituteVariables. simpl.
  rewrite fold_left_app. simpl. rewrite Hurl. f_equal.
  unfold substitutedValue in Hvalue.
  destruct (negb (String.eqb (ServerVariable.Default variable) "")) eqn:Hdefault.
  - injection Hvalue as <-.
    by apply Replace1_leftmost.
  - destruct (ServerVariable.Enum variable) as [|e0 rest]; [done|].
    injection Hvalue as <-.
    by apply Replace1_leftmost.
Qed.

(** The template [https://{env}.example.com/{env}]: its first [{env}] is replaced. *)
Lemma parseServer_replaces_leftmost_token_witness :
  substituteVariables
    (Server.mk "https://{env}.example.com/{env}"
       ([] ++ ("env", Some (ServerVariable.mk ["staging"] "api")) :: [])%list)
  = fold_left substituteVariable [] ("https://" ++ "api" ++ ".example.com/{env}").
Proof.
  apply (parseServer_replaces_leftmost_token
           "https://{env}.example.com/{env}" [] [] "env"
           (ServerVariable.mk ["staging"] "api") "api" "https://" ".example.com/{env}").
  - reflexivity.
  - reflexivity.
  - intros k Hk. do 8 (destruct k as [|k]; [reflexivity|]). simpl in Hk. lia.
Defined.

(** C2, as the design document states it, fails: with the token twice in the
    template, resolution leaves the second occurrence in place, where replacing
    every occurrence would not. *)
Lemma parseServer_keeps_second_token :
  let server := Server.mk "https://{env}.example.com/{env}"
                  [("env", Some (ServerVariable.mk [] "api"))] in
  parseServer server = Ret "https://api.example.com/{env}"
  /\ fold_left substituteVariable_every (Server.Variables server) (Server.URL server)
     = "https://api.example.com/api"
  /\ substituteVariables server
     <> fold_left substituteVariable_every (Server.Variables server) (Server.URL server).
Proof. vm_compute. repeat split; discriminate. Qed.

(** C7: resolution of a server fails, with [InvalidServerURL], exactly when the
    URL obtained after variable substitution does not begin with [http] or
    [https], and otherwise returns that URL; the server
    [https://{env}.example.com] with [env] defaulting to [api] resolves to
    [https://api.example.com]; and a document whose server URL does not start
    with [http] fails extraction, whatever the operation asked for. *)
Theorem parseServer_fails_exactly_without_http (server : Server.t) :
  let s := substituteVariables server in
  (parseServer server = Fail (InvalidServerURL s)
   <-> strings.HasPrefix s "http" || strings.HasPrefix s "https" = false)
  /\ (parseServer server = Ret s
      <-> strings.HasPrefix s "http" || strings.HasPrefix s "https" = true)
  /\ parseServer (Server.mk "https://{env}.example.com"
                    [("env", Some (ServerVariable.mk [] "api"))])
     = Ret "https://api.example.com"
  /\ (forall (t : T.t) (operationID : string) (rest : list Server.t),
        T.Servers t = server :: rest ->
        strings.HasPrefix s "http" = false ->
        GetSchema_doc operationID t = Fail (InvalidServerURL s)).
Proof.
  intros s.
  assert (Hor : strings.HasPrefix s "http" || strings.HasPrefix s "https"
                = strings.HasPrefix s "http").
  { destruct (strings.HasPrefix s "http") eqn:Hhttp; [reflexivity|].
    destruct (strings.HasPrefix s "https") eqn:Hhttps; [|reflexivity].
    apply HasPrefix_https in Hhttps. congruence. }
  rewrite Hor. unfold parseServer. fold s.
  repeat split.
  - destruct (strings.HasPrefix s "http"); simpl; [discriminate|reflexivity].
  - destruct (strings.HasPrefix s "http"); simpl; [discriminate|reflexivity].
  - destruct (strings.HasPrefix s "http"); simpl; [reflexivity|discriminate].
  - destruct (strings.HasPrefix s "http"); simpl; [reflexivity|discriminate].
  - intros t operationID rest Hservers Hhttp.
    unfold GetSchema_doc, parseServer. rewrite Hservers. fold s.
    by rewrite Hhttp.
Qed.

(** A document whose server is the relative URL [/api/v1] fails extraction. *)
Lemma parseServer_fails_exactly_without_http_witness :
  GetSchema_doc "listPets"
    (T.mk [Server.mk "/api/v1" []]
       [("/pets", PathItem.mk [] []
                    [("GET", Operation.mk "listPets" "" "" None [] None)])])
  = Fail (InvalidServerURL "/api/v1").
Proof.
  apply (proj2 (proj2 (proj2 (parseServer_fails_exactly_without_http
                                (Server.mk "/api/v1" [])))) _ "listPets" []).
  - reflexivity.
  - reflexivity.
Defined.

(** ** Schema extraction *)

Section Extraction.










Lemma parseServer_firstServerOK server rest :
  firstServerOK (server :: rest) = true ->
  parseServer server = Ret (substituteVariables server).
Proof. unfold parseServer. simpl. by intros ->. Qed.


Lemma BodyContentMIME_set mime info :
  OperationInfo.BodyContentMIME (set_BodyContentMIME mime info) = mime.
Proof. by destruct info. Qed.


(** The body loop keeps a supported MIME type, or none. *)
Lemma selectBody_mime content : forall st st',
  selectBody st content = Ret st' ->
  OperationInfo.BodyContentMIME st'.2 = OperationInfo.BodyContentMIME st.2
  \/ slices_Contains supportedMIMETypes (OperationInfo.BodyContentMIME st'.2) = true.
Proof.
  induction content as [|[mime media] rest IH]; intros st st' Hrun; simpl in Hrun.
  - injection Hrun as <-. by left.
  - destruct (slices_Contains supportedMIMETypes mime) eqn:Hmime; simpl in Hrun;
      [|by apply IH].
    destruct st as [arguments info].
    destruct (bodyArg media) as [arg|]; [|discriminate].
    injection Hrun as <-. right. simpl. by rewrite BodyContentMIME_set.
Qed.




End Extraction.




(** ** The body content type between extraction and compilation *)

Section BodyContentType.
Context `{Externals}.

Lemma saveParameter_BodyContentMIME info in_ p :
  OperationInfo.BodyContentMIME (saveParameter info in_ p)
  = OperationInfo.BodyContentMIME info.
Proof.
  destruct info. unfold saveParameter.
  repeat (case_match; try reflexivity).
Qed.

Lemma addParameters_BodyContentMIME params : forall st st',
  addParameters st params = Ret st' ->
  OperationInfo.BodyContentMIME st'.2 = OperationInfo.BodyContentMIME st.2.
Proof.
  induction params as [|param rest IH]; intros st st' Hrun; simpl in Hrun.
  - by injection Hrun as <-.
  - destruct (addParameter st param) as [st1| |] eqn:Hstep; try discriminate.
    simpl in Hrun. rewrite (IH _ _ Hrun).
    destruct st as [arguments info]. unfold addParameter in Hstep.
    destruct (parameterArg param); [|discriminate].
    injection Hstep as <-. simpl. apply saveParameter_BodyContentMIME.
Qed.

(** Extraction selects no body content type, or a supported one. *)
Lemma extractOperation_BodyContentMIME operationID path method pathServer pathItem
    operation schema info :
  extractOperation operationID path method pathServer pathItem operation
  = Ret (schema, info) ->
  OperationInfo.BodyContentMIME info = ""
  \/ slices_Contains supportedMIMETypes (OperationInfo.BodyContentMIME info) = true.
Proof.
  unfold extractOperation. intros Hrun.
  destruct (match Operation.Servers operation with
            | Some (server :: _) => parseServer server
            | _ => Ret pathServer
            end) as [operationServer| |]; try discriminate.
  simpl in Hrun.
  destruct (addParameters _ _) as [st| |] eqn:Hparams; try discriminate.
  simpl in Hrun. apply addParameters_BodyContentMIME in Hparams. simpl in Hparams.
  unfold addRequestBody in Hrun.
  destruct (Operation.RequestBody operation) as [rb|].
  - destruct (selectBody st (RequestBody.Content rb)) as [st'| |] eqn:Hbody;
      try discriminate.
    simpl in Hrun.
    destruct (String.eqb (OperationInfo.BodyContentMIME st'.2) ""); [discriminate|].
    injection Hrun as Hst. apply selectBody_mime in Hbody.
    rewrite Hst in Hbody. simpl in Hbody. rewrite Hparams in Hbody. exact Hbody.
  - injection Hrun as Hst. rewrite Hst in Hparams. by left.
Qed.

Lemma writeFields_Fail members : forall body e,
  writeFields body members = Fail e -> e = WriteFieldError.
Proof.
  induction members as [|[k v] rest IH]; intros body e; simpl; [discriminate|].
  destruct (multipart_WriteField k (gjson.Str v)) as [part|]; simpl.
  - apply IH.
  - by intros [= <-].
Qed.

(** Of the supported content types, the unsupported-MIME branch of the
    body stage is reached by [application/x-www-form-urlencoded], and by
    it alone. *)
Lemma handleBody_UnsupportedMIME req mime args :
  slices_Contains supportedMIMETypes mime = true ->
  handleBody req mime args = Fail (UnsupportedMIME mime)
  <-> mime = "application/x-www-form-urlencoded".
Proof.
  unfold slices_Contains, supportedMIMETypes. simpl. intros Hmime.
  destruct (String.eqb_spec mime "application/json") as [->|_].
  { unfold handleBody. simpl.
    destruct (json_Encode _); simpl; split; discriminate. }
  destruct (String.eqb_spec mime "application/x-www-form-urlencoded") as [->|_].
  { by split. }
  destruct (String.eqb_spec mime "multipart/form-data") as [->|_]; [|discriminate].
  unfold handleBody. simpl. split; [|discriminate].
  destruct (gjson.Exists _ && gjson.IsObject _); [|discriminate].
  destruct (writeFields _ _) as [body| |] eqn:Hfields; simpl; try discriminate.
  - destruct multipart_Close; discriminate.
  - apply writeFields_Fail in Hfields as ->. discriminate.
Qed.

End BodyContentType.

(** C1 fails on the code: extraction accepts a body declared under
    [application/x-www-form-urlencoded], a member of the supported list, and
    the body stage of Run then ends in its unsupported-MIME branch, before any
    request is issued. *)
Theorem Run_form_urlencoded_UnsupportedMIME :
  let t := Setting.bodyDoc "createPet" "application/x-www-form-urlencoded" in
  let payload :=
    Setting.obj [("requestBodyContent", Setting.obj [("name", gjson.JString "rex")])] in
  let W := Setting.world t payload Setting.noenv in
  (exists schema info,
      @GetSchema W "createPet" "api.json" = Ret (Some (schema, info))
      /\ OperationInfo.BodyContentMIME info = "application/x-www-form-urlencoded"
      /\ slices_Contains supportedMIMETypes (OperationInfo.BodyContentMIME info) = true)
  /\ @Run W "createPet" "api.json" (gjson.Str payload)
     = ([], Fail (UnsupportedMIME "application/x-www-form-urlencoded")).
Proof.
  split.
  - eexists _, _. split; [vm_compute; reflexivity|]. split; reflexivity.
  - vm_compute. reflexivity.
Qed.

(** ** Parameter serialisation *)

Section Serialisation.
Context `{Externals}.

Lemma handlePathParameters_app path before after input :
  handlePathParameters path (before ++ after)%list input
  = handlePathParameters (handlePathParameters path before input) after input.
Proof. unfold handlePathParameters. apply fold_left_app. Qed.

Lemma handleQueryParameters_app q before after input :
  handleQueryParameters q (before ++ after)%list input
  = handleQueryParameters (handleQueryParameters q before input) after input.
Proof. unfold handleQueryParameters. apply fold_left_app. Qed.

Lemma handlePathParameters_cons path param rest input :
  handlePathParameters path (param :: rest) input
  = handlePathParameters
      (pathParameter path param (gjson_Get input (Param.Name param))) rest input.
Proof. reflexivity. Qed.

Lemma handleQueryParameters_cons q param rest input :
  handleQueryParameters q (param :: rest) input
  = handleQueryParameters
      (queryParameter q param (gjson_Get input (Param.Name param))) rest input.
Proof. reflexivity. Qed.

(** An array under style [simple] is joined by commas, whatever
    [explode] says. *)
Lemma pathParameter_simple_array path name style explode res :
  style = "simple" \/ style = "" ->
  gjson.IsArray res = true ->
  pathParameter path (Param.mk name style explode) res
  = replacePlaceholder path name
      (strings.Join (List.map gjson.Str (gjson.Array res)) ",").
Proof.
  intros Hstyle Harray. destruct res; try discriminate.
  by destruct Hstyle as [-> | ->].
Qed.

Lemma Contains_false_cons x y l :
  slices_Contains (y :: l) x = false ->
  String.eqb x y = false /\ slices_Contains l x = false.
Proof. unfold slices_Contains. simpl. apply orb_false_elim. Qed.

Lemma pathParameter_unrecognised path param res :
  slices_Contains pathStyles (Param.Style param) = false ->
  pathParameter path param res = path.
Proof.
  intros Hstyle. unfold pathStyles in Hstyle.
  apply Contains_false_cons in Hstyle as [Hsimple Hstyle].
  apply Contains_false_cons in Hstyle as [Hempty Hstyle].
  apply Contains_false_cons in Hstyle as [Hlabel Hstyle].
  apply Contains_false_cons in Hstyle as [Hmatrix _].
  unfold pathParameter. rewrite Hsimple, Hempty, Hlabel, Hmatrix. simpl.
  by repeat case_match.
Qed.

Lemma queryParameter_array_unrecognised q param res :
  gjson.IsArray res = true ->
  slices_Contains queryArrayStyles (Param.Style param) = false ->
  queryParameter q param res = q.
Proof.
  intros Harray Hstyle. unfold queryArrayStyles in Hstyle.
  apply Contains_false_cons in Hstyle as [Hform Hstyle].
  apply Contains_false_cons in Hstyle as [Hempty Hstyle].
  apply Contains_false_cons in Hstyle as [Hspace Hstyle].
  apply Contains_false_cons in Hstyle as [Hpipe _].
  unfold queryParameter. rewrite Harray, Hform, Hempty, Hspace, Hpipe. simpl.
  by case_match.
Qed.

Lemma queryParameter_object_unrecognised q param res :
  gjson.IsObject res = true ->
  slices_Contains queryObjectStyles (Param.Style param) = false ->
  queryParameter q param res = q.
Proof.
  intros Hobject Hstyle. unfold queryObjectStyles in Hstyle.
  apply Contains_false_cons in Hstyle as [Hform Hstyle].
  apply Contains_false_cons in Hstyle as [Hempty Hstyle].
  apply Contains_false_cons in Hstyle as [Hdeep _].
  destruct res; try discriminate.
  unfold queryParameter. simpl. by rewrite Hform, Hempty, Hdeep.
Qed.

Lemma queryParameter_scalar q param res :
  gjson.Exists res = true -> gjson.IsArray res = false -> gjson.IsObject res = false ->
  queryParameter q param res = url.Add q (Param.Name param) (gjson.Str res).
Proof. intros Hexists Harray Hobject. unfold queryParameter. by rewrite Hexists, Harray, Hobject. Qed.

(** *** The query only grows *)

Lemma extends_refl (q : url.Values) : extends q q.
Proof. intros key values Hkey. exists []. by rewrite app_nil_r. Qed.

Lemma extends_trans (q1 q2 q3 : url.Values) :
  extends q1 q2 -> extends q2 q3 -> extends q1 q3.
Proof.
  intros H12 H23 key values Hkey.
  destruct (H12 key values Hkey) as [added1 Hkey2].
  destruct (H23 key _ Hkey2) as [added2 Hkey3].
  exists (added1 ++ added2)%list. by rewrite app_assoc.
Qed.

Lemma Add_lookup (q : url.Values) (key value : string) :
  url.Add q key value !! key = Some (default [] (q !! key) ++ [value])%list.
Proof. unfold url.Add. by rewrite lookup_insert_eq. Qed.

Lemma Add_extends (q : url.Values) (key value : string) : extends q (url.Add q key value).
Proof.
  intros key' values Hkey. unfold url.Add.
  destruct (decide (key = key')) as [->|Hne].
  - rewrite lookup_insert_eq, Hkey. by exists [value].
  - rewrite lookup_insert_ne by done. exists []. by rewrite app_nil_r.
Qed.

Lemma fold_left_extends {A : Type} (f : url.Values -> A -> url.Values) :
  (forall q a, extends q (f q a)) ->
  forall l q, extends q (fold_left f l q).
Proof.
  intros Hstep l. induction l as [|a l IH]; intros q; simpl.
  - apply extends_refl.
  - eapply extends_trans; [apply Hstep|apply IH].
Qed.

Lemma queryArray_extends q param res sep : extends q (queryArray q param res sep).
Proof.
  unfold queryArray, addItems. case_match.
  - apply fold_left_extends. intros. apply Add_extends.
  - apply Add_extends.
Qed.

Lemma queryParameter_extends q param res : extends q (queryParameter q param res).
Proof.
  unfold queryParameter.
  repeat case_match;
    try apply extends_refl; try apply queryArray_extends; try apply Add_extends;
    apply fold_left_extends; intros; apply Add_extends.
Qed.

Lemma handleQueryParameters_extends params input q :
  extends q (handleQueryParameters q params input).
Proof.
  unfold handleQueryParameters. apply fold_left_extends.
  intros. apply queryParameter_extends.
Qed.

(** *** What the encoded query contains *)

Lemma sortedKeys_elem (q : url.Values) (key : string) (values : list string) :
  q !! key = Some values -> key ∈ url.sortedKeys q.
Proof.
  intros Hkey. unfold url.sortedKeys. rewrite merge_sort_Permutation.
  apply list_elem_of_fmap. exists (key, values). split; [done|].
  by apply elem_of_map_to_list.
Qed.

(** The encoded pairs of [q], in the order of the encoding. *)
Lemma Encode_pairs (q : url.Values) (key : string) (values : list string) :
  q !! key = Some values ->
  exists before after,
    url.Encode q
    = strings.Join
        (before
         ++ List.map (fun v => (url.QueryEscape key ++ "=" ++ url.QueryEscape v)%string)
              values
         ++ after)%list "&".
Proof.
  intros Hkey. unfold url.Encode.
  destruct (list_elem_of_split _ _ (sortedKeys_elem q key values Hkey))
    as (keys1 & keys2 & ->).
  rewrite flat_map_app. simpl. rewrite Hkey. simpl. eauto.
Qed.

Lemma Encode_contains_pair (q : url.Values) (key x : string)
    (before after : list string) :
  q !! key = Some (before ++ x :: after)%list ->
  contains (url.Encode q) (url.QueryEscape key ++ "=" ++ url.QueryEscape x).
Proof.
  intros Hkey. destruct (Encode_pairs q key _ Hkey) as (pairs1 & pairs2 & ->).
  rewrite List.map_app. simpl. rewrite <- app_assoc, app_assoc. simpl.
  apply Join_contains.
Qed.

Lemma Encode_contains_neighbours (q : url.Values) (key x y : string)
    (before after : list string) :
  q !! key = Some (before ++ x :: y :: after)%list ->
  contains (url.Encode q)
    ((url.QueryEscape key ++ "=" ++ url.QueryEscape x)
     ++ "&" ++ (url.QueryEscape key ++ "=" ++ url.QueryEscape y)).
Proof.
  intros Hkey. destruct (Encode_pairs q key _ Hkey) as (pairs1 & pairs2 & ->).
  rewrite List.map_app. simpl. rewrite <- app_assoc, app_assoc. simpl.
  apply Join_contains_neighbours.
Qed.

End Serialisation.

(** The array case of style [form]. *)
Lemma queryParameter_form_array (W : Externals) q name style explode raw items :
  style = "form" \/ style = "" ->
  queryParameter q (Param.mk name style explode) (gjson.JArray raw items)
  = if exploded explode
    then addItems q name items
    else url.Add q name (strings.Join (List.map gjson.Str items) ",").
Proof. by intros [-> | ->]. Qed.

(** C4: for the query parameter [tags] with style [form] (also when the style
    is left out) and the array value ["a","b"], whatever the query already in
    the URL and the other query parameters, the compiled query string contains
    [tags=a&tags=b] when explode is absent or true, and [tags=a%2Cb] when
    explode is false; when [tags] is the only query parameter and the URL has
    no query, these are the whole query string. *)
Theorem form_array_query_string (W : Externals) (args raw style : string)
    (q0 : url.Values) (before after : list Param.t) :
  gjson_Get args "tags" = gjson.JArray raw [gjson.JString "a"; gjson.JString "b"] ->
  style = "form" \/ style = "" ->
  let query := fun explode =>
    url.Encode (handleQueryParameters q0
                  (before ++ Param.mk "tags" style explode :: after)%list args) in
  let alone := fun explode =>
    url.Encode (handleQueryParameters ∅ [Param.mk "tags" style explode] args) in
  (contains (query None) "tags=a&tags=b"
   /\ contains (query (Some true)) "tags=a&tags=b"
   /\ contains (query (Some false)) "tags=a%2Cb")
  /\ (alone None = "tags=a&tags=b"
      /\ alone (Some true) = "tags=a&tags=b"
      /\ alone (Some false) = "tags=a%2Cb").
Proof.
  intros Hget Hstyle query alone.
  assert (Hexploded : forall explode, exploded explode = true ->
             contains (query explode) "tags=a&tags=b").
  { intros explode Hexplode. subst query. simpl.
    rewrite handleQueryParameters_app, handleQueryParameters_cons.
    simpl Param.Name. rewrite Hget, (queryParameter_form_array W _ _ _ _ _ _ Hstyle), Hexplode.
    set (q1 := handleQueryParameters q0 before args).
    destruct (handleQueryParameters_extends after args
                (addItems q1 "tags" [gjson.JString "a"; gjson.JString "b"]) "tags"
                (default [] (q1 !! "tags") ++ ["a"; "b"])%list) as [added Hadded].
    { unfold addItems. simpl. rewrite Add_lookup, Add_lookup. simpl.
      by rewrite <- app_assoc. }
    rewrite <- app_assoc in Hadded.
    exact (Encode_contains_neighbours _ "tags" "a" "b" _ _ Hadded). }
  split; [split; [|split]|].
  - by apply Hexploded.
  - by apply Hexploded.
  - subst query. simpl.
    rewrite handleQueryParameters_app, handleQueryParameters_cons.
    simpl Param.Name. rewrite Hget, (queryParameter_form_array W _ _ _ _ _ _ Hstyle).
    simpl exploded. cbv iota.
    set (q1 := handleQueryParameters q0 before args).
    destruct (handleQueryParameters_extends after args
                (url.Add q1 "tags" "a,b") "tags"
                (default [] (q1 !! "tags") ++ ["a,b"])%list) as [added Hadded].
    { by rewrite Add_lookup. }
    rewrite <- app_assoc in Hadded.
    exact (Encode_contains_pair _ "tags" "a,b" _ _ Hadded).
  - subst alone. cbv beta.
    rewrite !handleQueryParameters_cons. simpl Param.Name. rewrite Hget.
    destruct Hstyle as [-> | ->]; repeat split; vm_compute; reflexivity.
Qed.

(** The parameter [tags] after a parameter [limit], on the payload with both. *)
Lemma form_array_query_string_witness :
  let payload := Setting.obj [("tags", Setting.arr [gjson.JString "a"; gjson.JString "b"]);
                              ("limit", gjson.JNumber "5")] in
  let W := Setting.world (Setting.listPetsDoc "https://api.example.com") payload Setting.noenv in
  let query := fun explode =>
    url.Encode (@handleQueryParameters W ∅
                  ([Param.mk "limit" "" None] ++ Param.mk "tags" "form" explode :: [])%list
                  (gjson.Str payload)) in
  (contains (query None) "tags=a&tags=b"
   /\ contains (query (Some true)) "tags=a&tags=b"
   /\ contains (query (Some false)) "tags=a%2Cb")
  /\ query None = "limit=5&tags=a&tags=b"
  /\ query (Some false) = "limit=5&tags=a%2Cb".
Proof.
  intros payload W query.
  split; [|split; reflexivity].
  apply (form_array_query_string W (gjson.Str payload)
           ("[" ++ Setting.quoted "a" ++ "," ++ Setting.quoted "b" ++ "]") "form"
           ∅ [Param.mk "limit" "" None] []).
  - reflexivity.
  - left. reflexivity.
Defined.

(** C5: for every array value bound to a path parameter with style [simple]
    (also when the style is left out), the substituted path is the same
    whatever the explode flags [explode1] and [explode2] are, be they true,
    false or absent. *)
Theorem simple_array_explode_irrelevant (W : Externals)
    (path name style input : string) (explode1 explode2 : option bool)
    (before after : list Param.t) :
  style = "simple" \/ style = "" ->
  gjson.IsArray (gjson_Get input name) = true ->
  handlePathParameters path (before ++ Param.mk name style explode1 :: after)%list input
  = handlePathParameters path (before ++ Param.mk name style explode2 :: after)%list input.
Proof.
  intros Hstyle Harray.
  rewrite !handlePathParameters_app, !handlePathParameters_cons. simpl Param.Name.
  by rewrite !(pathParameter_simple_array _ _ _ _ _ Hstyle Harray).
Qed.

(** The array [3,4] bound to [ids] in [/pets/{ids}]. *)
Lemma simple_array_explode_irrelevant_witness :
  let payload := Setting.obj [("ids", Setting.arr [gjson.JNumber "3"; gjson.JNumber "4"])] in
  let W := Setting.world (Setting.listPetsDoc "https://api.example.com") payload Setting.noenv in
  @handlePathParameters W "/pets/{ids}" ([] ++ Param.mk "ids" "simple" (Some true) :: [])%list
    (gjson.Str payload)
  = @handlePathParameters W "/pets/{ids}" ([] ++ Param.mk "ids" "simple" (Some false) :: [])%list
      (gjson.Str payload).
Proof.
  intros payload W.
  apply (simple_array_explode_irrelevant W "/pets/{ids}" "ids" "simple" (gjson.Str payload)
           (Some true) (Some false) [] []).
  - left. reflexivity.
  - reflexivity.
Defined.

Example simple_array_path :
  let payload := Setting.obj [("ids", Setting.arr [gjson.JNumber "3"; gjson.JNumber "4"])] in
  let W := Setting.world (Setting.listPetsDoc "https://api.example.com") payload Setting.noenv in
  @handlePathParameters W "/pets/{ids}" [Param.mk "ids" "simple" (Some true)]
    (gjson.Str payload)
  = "/pets/3,4".
Proof. reflexivity. Qed.

(** C6, as amended: a parameter whose style has no case for the shape of its
    value is skipped, and no error is raised: a path parameter of any shape
    whose style is none of simple, label, matrix leaves the path as it was, a
    query array whose style is none of form, spaceDelimited, pipeDelimited and a
    query object whose style is none of form, deepObject leave the query as it
    was.  A scalar query value is not subject to the style: it is always added
    as one pair of the name and the value. *)
Theorem unrecognised_style_skips_parameter (W : Externals) (param : Param.t)
    (before after : list Param.t) (input : string) :
  let res := gjson_Get input (Param.Name param) in
  (slices_Contains pathStyles (Param.Style param) = false ->
   forall path,
     handlePathParameters path (before ++ param :: after)%list input
     = handlePathParameters path (before ++ after)%list input)
  /\ (gjson.IsArray res = true ->
      slices_Contains queryArrayStyles (Param.Style param) = false ->
      forall q,
        handleQueryParameters q (before ++ param :: after)%list input
        = handleQueryParameters q (before ++ after)%list input)
  /\ (gjson.IsObject res = true ->
      slices_Contains queryObjectStyles (Param.Style param) = false ->
      forall q,
        handleQueryParameters q (before ++ param :: after)%list input
        = handleQueryParameters q (before ++ after)%list input)
  /\ (gjson.Exists res = true -> gjson.IsArray res = false -> gjson.IsObject res = false ->
      forall q,
        handleQueryParameters q (before ++ param :: after)%list input
        = handleQueryParameters
            (url.Add (handleQueryParameters q before input) (Param.Name param) (gjson.Str res))
            after input).
Proof.
  intros res. repeat split.
  - intros Hstyle path.
    rewrite !handlePathParameters_app, handlePathParameters_cons.
    by rewrite pathParameter_unrecognised.
  - intros Harray Hstyle q.
    rewrite !handleQueryParameters_app, handleQueryParameters_cons.
    by rewrite queryParameter_array_unrecognised.
  - intros Hobject Hstyle q.
    rewrite !handleQueryParameters_app, handleQueryParameters_cons.
    by rewrite queryParameter_object_unrecognised.
  - intros Hexists Harray Hobject q.
    rewrite !handleQueryParameters_app, handleQueryParameters_cons.
    by rewrite queryParameter_scalar.
Qed.

(** One parameter for each of the four cases, on one payload. *)
Lemma unrecognised_style_skips_parameter_witness :
  let payload :=
    Setting.obj [("ids", Setting.arr [gjson.JNumber "3"; gjson.JNumber "4"]);
                 ("filter", Setting.obj [("a", gjson.JString "1")]);
                 ("id", gjson.JNumber "5")] in
  let W := Setting.world (Setting.listPetsDoc "https://api.example.com") payload Setting.noenv in
  @handlePathParameters W "/pets/{ids}" ([] ++ Param.mk "ids" "form" None :: [])%list
    (gjson.Str payload)
  = @handlePathParameters W "/pets/{ids}" ([] ++ [])%list (gjson.Str payload)
  /\ @handleQueryParameters W ∅ ([] ++ Param.mk "ids" "deepObject" None :: [])%list
       (gjson.Str payload)
     = @handleQueryParameters W ∅ ([] ++ [])%list (gjson.Str payload)
  /\ @handleQueryParameters W ∅ ([] ++ Param.mk "filter" "pipeDelimited" None :: [])%list
       (gjson.Str payload)
     = @handleQueryParameters W ∅ ([] ++ [])%list (gjson.Str payload)
  /\ @handleQueryParameters W ∅ ([] ++ Param.mk "id" "deepObject" None :: [])%list
       (gjson.Str payload)
     = @handleQueryParameters W
         (url.Add (@handleQueryParameters W ∅ [] (gjson.Str payload)) "id" "5")
         [] (gjson.Str payload).
Proof.
  intros payload W. split; [|split; [|split]].
  - apply (proj1 (unrecognised_style_skips_parameter W (Param.mk "ids" "form" None)
                    [] [] (gjson.Str payload))).
    reflexivity.
  - apply (proj1 (proj2 (unrecognised_style_skips_parameter W
                           (Param.mk "ids" "deepObject" None) [] [] (gjson.Str payload))));
      reflexivity.
  - apply (proj1 (proj2 (proj2 (unrecognised_style_skips_parameter W
                                  (Param.mk "filter" "pipeDelimited" None) [] []
                                  (gjson.Str payload)))));
      reflexivity.
  - apply (proj2 (proj2 (proj2 (unrecognised_style_skips_parameter W
                                  (Param.mk "id" "deepObject" None) [] []
                                  (gjson.Str payload)))));
      reflexivity.
Defined.

(** C6, as the design document states it, fails: under style [deepObject] a
    scalar value and an array value are not treated alike.  The scalar is
    written to the query as [id=5]; the array is dropped and the query stays
    empty.  No one reading of a serialisation that does nothing covers both. *)
Lemma deepObject_scalar_and_array_differ :
  let scalar := Setting.obj [("id", gjson.JNumber "5")] in
  let array := Setting.obj [("id", Setting.arr [gjson.JNumber "5"; gjson.JNumber "6"])] in
  let doc := Setting.listPetsDoc "https://api.example.com" in
  url.Encode (@handleQueryParameters (Setting.world doc scalar Setting.noenv) ∅
                [Param.mk "id" "deepObject" None] (gjson.Str scalar))
  = "id=5"
  /\ @handleQueryParameters (Setting.world doc scalar Setting.noenv) ∅
       [Param.mk "id" "deepObject" None] (gjson.Str scalar) <> ∅
  /\ @handleQueryParameters (Setting.world doc array Setting.noenv) ∅
       [Param.mk "id" "deepObject" None] (gjson.Str array) = ∅.
Proof.
  split; [vm_compute; reflexivity|].
  split; [|vm_compute; reflexivity].
  intros Hempty.
  apply (f_equal (fun q : url.Values => q !! "id")) in Hempty.
  vm_compute in Hempty. discriminate.
Qed.

(** ** Request execution *)

Section Execution.
Context `{Externals}.

Lemma handleBody_multipart_not_object req args :
  gjson.IsObject (gjson_Get args "requestBodyContent") = false ->
  handleBody req "multipart/form-data" args = Fail InvalidBodyShape.
Proof.
  intros Hobject. unfold handleBody. simpl.
  by rewrite Hobject, andb_false_r.
Qed.

Lemma set_Header_URL header req :
  http.Request.URL (set_Header header req) = http.Request.URL req.
Proof. by destruct req. Qed.

Lemma set_Body_URL body req :
  http.Request.URL (set_Body body req) = http.Request.URL req.
Proof. by destruct req. Qed.

Lemma AddCookie_URL req c :
  http.Request.URL (AddCookie req c) = http.Request.URL req.
Proof. by destruct req. Qed.

Lemma set_RawQuery_RawQuery rawQuery req :
  url.URL.RawQuery (http.Request.URL (set_RawQuery rawQuery req)) = rawQuery.
Proof. by destruct req. Qed.

Lemma handleHeaderParameters_URL params input : forall req,
  http.Request.URL (handleHeaderParameters req params input) = http.Request.URL req.
Proof.
  induction params as [|param rest IH]; intros req; [reflexivity|].
  unfold handleHeaderParameters in *. simpl. rewrite IH.
  unfold headerParameter, addHeader. case_match; [apply set_Header_URL|reflexivity].
Qed.

Lemma handleCookieParameters_URL params input : forall req,
  http.Request.URL (handleCookieParameters req params input) = http.Request.URL req.
Proof.
  induction params as [|param rest IH]; intros req; [reflexivity|].
  unfold handleCookieParameters in *. simpl. rewrite IH.
  unfold cookieParameter. case_match; [apply AddCookie_URL|reflexivity].
Qed.

(** The body stage leaves the URL of the request alone. *)
Lemma handleBody_URL req mime args req' :
  handleBody req mime args = Ret req' ->
  http.Request.URL req' = http.Request.URL req.
Proof.
  unfold handleBody.
  destruct (String.eqb mime ""); [by intros [= <-]|].
  destruct (String.eqb mime "application/json").
  { destruct (json_Encode _); simpl; [|discriminate].
    intros [= <-]. by rewrite set_Body_URL, set_Header_URL. }
  destruct (String.eqb mime "text/plain").
  { intros [= <-]. by rewrite set_Body_URL, set_Header_URL. }
  destruct (String.eqb mime "multipart/form-data"); [|discriminate].
  destruct (gjson.Exists _ && gjson.IsObject _); [|discriminate].
  destruct (writeFields _ _); simpl; try discriminate.
  destruct multipart_Close; simpl; [|discriminate].
  intros [= <-]. by rewrite set_Body_URL, set_Header_URL.
Qed.

Lemma Encode_empty : url.Encode ∅ = "".
Proof. reflexivity. Qed.

End Execution.

(** C8, as amended: for every Run invocation whose operation has body content
    type [multipart/form-data], if the requestBodyContent value of the payload
    is not a JSON object (also when it is absent), Run fails and no HTTP request
    is issued; the failure is [InvalidBodyShape] whenever the payload passes
    validation and the URL and the request are built. *)
Theorem multipart_body_not_object (W : Externals) (operationID file args : string)
    (schema : Schema) (info : OperationInfo.t) :
  let input := if String.eqb args "" then "{}" else args in
  let path := handlePathParameters (OperationInfo.Path info)
                (OperationInfo.PathParams info) input in
  GetSchema operationID file = Ret (Some (schema, info)) ->
  OperationInfo.BodyContentMIME info = "multipart/form-data" ->
  gjson.IsObject (gjson_Get input "requestBodyContent") = false ->
  (Run operationID file args).1 = []
  /\ (exists e, (Run operationID file args).2 = Fail e)
  /\ (forall joined u req,
        Validate schema input = Some true ->
        url_JoinPath (OperationInfo.Server info) path = Some joined ->
        url_Parse joined = Some u ->
        http_NewRequest (OperationInfo.Method info) (URL_String u) = Some req ->
        (Run operationID file args).2 = Fail InvalidBodyShape).
Proof.
  intros input path Hschema Hmime Hobject.
  unfold Run, Run_request. fold input. rewrite Hschema. simpl. fold path.
  rewrite Hmime.
  destruct (Validate schema input) as [[|]|] eqn:Hvalid; simpl;
    [|split; [reflexivity|split; [eauto|discriminate]]..].
  destruct (url_JoinPath (OperationInfo.Server info) path) as [joined|] eqn:Hjoin; simpl;
    [|split; [reflexivity|split; [eauto|discriminate]]].
  destruct (url_Parse joined) as [u|] eqn:Hparse; simpl;
    [|split; [reflexivity|split; [eauto|]]; intros ? ? ? _ [= <-]; congruence].
  destruct (http_NewRequest (OperationInfo.Method info) (URL_String u)) as [req|] eqn:Hreq;
    simpl;
    [|split; [reflexivity|split; [eauto|]];
      intros ? ? ? _ [= <-] Hparse'; rewrite Hparse in Hparse';
      injection Hparse' as <-; congruence].
  rewrite handleBody_multipart_not_object by exact Hobject.
  simpl. split; [reflexivity|split; [eauto|reflexivity]].
Qed.

(** A multipart operation run with a string as requestBodyContent. *)
Lemma multipart_body_not_object_witness :
  let payload := Setting.obj [("requestBodyContent", gjson.JString "rex")] in
  let W := Setting.world (Setting.bodyDoc "uploadPet" "multipart/form-data") payload
             Setting.noenv in
  (@Run W "uploadPet" "api.json" (gjson.Str payload)).1 = []
  /\ (@Run W "uploadPet" "api.json" (gjson.Str payload)).2 = Fail InvalidBodyShape.
Proof.
  intros payload W.
  pose (found := match @GetSchema W "uploadPet" "api.json" with
                 | Ret (Some r) => r
                 | _ => (arguments0, OperationInfo.zero)
                 end).
  destruct (multipart_body_not_object W "uploadPet" "api.json" (gjson.Str payload)
              found.1 found.2 eq_refl eq_refl eq_refl) as (Hnone & _ & Hshape).
  split; [exact Hnone|].
  apply (Hshape "https://api.example.com/pets"
           (url.URL.mk "https://api.example.com/pets" "")
           (http.Request.mk "POST" (url.URL.mk "https://api.example.com/pets" "") ∅ [] None));
    reflexivity.
Defined.

(** C8, as the design document states it, fails when requestBodyContent is
    absent: the schema requires it, so validation rejects the payload before
    the body stage, and the error is the validation error. *)
Lemma multipart_body_absent_fails_validation :
  let payload := Setting.obj [] in
  let W := Setting.world (Setting.bodyDoc "uploadPet" "multipart/form-data") payload
             Setting.noenv in
  gjson_Get (gjson.Str payload) "requestBodyContent" = gjson.Absent
  /\ @Run W "uploadPet" "api.json" (gjson.Str payload)
     = ([], Fail (ValidationError "uploadPet"))
  /\ (@Run W "uploadPet" "api.json" (gjson.Str payload)).2 <> Fail InvalidBodyShape.
Proof.
  split; [reflexivity|]. split; [vm_compute; reflexivity|].
  vm_compute. discriminate.
Qed.

(** C10: when OPENAPI_QUERY_KEY has a value, the query string of the request
    that Run builds is the encoded query of the parameters, then [&], then
    [key=], then the escaped value; so when the parameters yield no pair, the
    query string is [&key=] and the escaped value, with a leading [&]. *)
Theorem query_key_appended (W : Externals) (operationID file args : string)
    (req : http.Request.t) :
  let input := if String.eqb args "" then "{}" else args in
  Getenv "OPENAPI_QUERY_KEY" <> "" ->
  Run_request operationID file args = Ret (Some req) ->
  exists schema info u req0,
    GetSchema operationID file = Ret (Some (schema, info))
    /\ http_NewRequest (OperationInfo.Method info) (URL_String u) = Some req0
    /\ let query :=
         handleQueryParameters
           (url_ParseQuery (url.URL.RawQuery (http.Request.URL req0)))
           (OperationInfo.QueryParams info) input in
       url.URL.RawQuery (http.Request.URL req)
       = url.Encode query ++ "&" ++ "key=" ++ url.QueryEscape (Getenv "OPENAPI_QUERY_KEY")
       /\ (query = ∅ ->
           url.URL.RawQuery (http.Request.URL req)
           = "&key=" ++ url.QueryEscape (Getenv "OPENAPI_QUERY_KEY")).
Proof.
  intros input Hkey. unfold Run_request. fold input.
  destruct (GetSchema operationID file) as [[[schema info]|]| |]; simpl; try discriminate.
  destruct (Validate schema input) as [[|]|]; simpl; try discriminate.
  destruct (url_JoinPath _ _) as [joined|]; simpl; try discriminate.
  destruct (url_Parse joined) as [u|]; simpl; try discriminate.
  destruct (http_NewRequest _ _) as [req0|] eqn:Hreq0; simpl; try discriminate.
  destruct (String.eqb_spec (Getenv "OPENAPI_QUERY_KEY") "") as [Hempty|_]; [done|].
  simpl.
  match goal with
  | |- context [handleBody ?r ?m ?a] => destruct (handleBody r m a) as [req'| |] eqn:Hbody
  end; simpl; try discriminate.
  intros [= <-].
  apply handleBody_URL in Hbody.
  rewrite handleCookieParameters_URL, handleHeaderParameters_URL in Hbody.
  exists schema, info, u, req0. split; [reflexivity|]. split; [exact Hreq0|].
  assert (Hquery :
    url.URL.RawQuery (http.Request.URL req')
    = url.Encode
        (handleQueryParameters
           (url_ParseQuery (url.URL.RawQuery (http.Request.URL req0)))
           (OperationInfo.QueryParams info) input)
      ++ "&" ++ "key=" ++ url.QueryEscape (Getenv "OPENAPI_QUERY_KEY")).
  { rewrite Hbody, set_RawQuery_RawQuery, set_RawQuery_RawQuery.
    destruct (negb (String.eqb (Getenv "OPENAPI_BEARER") ""));
      by rewrite ?set_Header_URL. }
  split; [exact Hquery|].
  intros Hnone. rewrite Hquery, Hnone. reflexivity.
Qed.

(** An operation without query parameters, run with the key [v]. *)
Lemma query_key_appended_witness :
  let W := Setting.world (Setting.listPetsDoc "https://api.example.com")
             (Setting.obj []) (Setting.queryKeyEnv "v") in
  exists req,
    @Run_request W "listPets" "api.json" "" = Ret (Some req)
    /\ url.URL.RawQuery (http.Request.URL req) = "&key=v".
Proof.
  intros W.
  pose (req := match @Run_request W "listPets" "api.json" "" with
               | Ret (Some r) => r
               | _ => http.Request.mk "" (url.URL.mk "" "") ∅ [] None
               end).
  exists req. split; [reflexivity|].
  destruct (query_key_appended W "listPets" "api.json" "" req
              ltac:(discriminate) eq_refl)
    as (schema & info & u & req0 & Hschema & Hreq0 & _ & Hnone).
  vm_compute in Hschema. injection Hschema as <- <-.
  vm_compute in Hreq0. injection Hreq0 as <-.
  apply Hnone. reflexivity.
Defined.

(** ** A parameter name declared twice *)

Section Duplicates.
Context `{Externals}.



Lemma located_nil loc : located loc [] = [].
Proof. reflexivity. Qed.








Lemma handleHeaderParameters_app req before after input :
  handleHeaderParameters req (before ++ after)%list input
  = handleHeaderParameters (handleHeaderParameters req before input) after input.
Proof. unfold handleHeaderParameters. apply fold_left_app. Qed.

Lemma handleCookieParameters_app req before after input :
  handleCookieParameters req (before ++ after)%list input
  = handleCookieParameters (handleCookieParameters req before input) after input.
Proof. unfold handleCookieParameters. apply fold_left_app. Qed.

Lemma handleHeaderParameters_cons req param rest input :
  handleHeaderParameters req (param :: rest) input
  = handleHeaderParameters
      (headerParameter req param (gjson_Get input (Param.Name param))) rest input.
Proof. reflexivity. Qed.

Lemma handleCookieParameters_cons req param rest input :
  handleCookieParameters req (param :: rest) input
  = handleCookieParameters
      (cookieParameter req param (gjson_Get input (Param.Name param))) rest input.
Proof. reflexivity. Qed.

End Duplicates.




(** * Further properties of the code *)

Set Warnings "-clear-no-such-hyp".

(** ** Escaping and substitution *)

Section Escaping.





End Escaping.



Section Placeholders.
Context `{Externals}.

Lemma HasPrefix_split (p s : string) :
  strings.HasPrefix s p = true -> s = p ++ strings.drop (String.length p) s.
Proof.
  revert s. induction p as [|c p IH]; intros s Hprefix; [by destruct s|].
  destruct s as [|d s]; [discriminate|]. simpl in Hprefix.
  destruct (Ascii.eqb_spec d c) as [->|]; [|discriminate].
  rewrite append_cons. simpl. f_equal. by apply IH.
Qed.

Lemma Replace1_absent (s old new : string) :
  ~ contains s old -> strings.Replace1 s old new = s.
Proof.
  induction s as [|c s IH]; intros Habsent; rewrite Replace1_unfold.
  - destruct (strings.HasPrefix "" old) eqn:Hprefix; [|reflexivity].
    exfalso. apply Habsent. exists "", (strings.drop (String.length old) "").
    rewrite append_nil_l. by apply HasPrefix_split.
  - destruct (strings.HasPrefix (String c s) old) eqn:Hprefix.
    + exfalso. apply Habsent. exists "", (strings.drop (String.length old) (String c s)).
      rewrite append_nil_l. by apply HasPrefix_split.
    + f_equal. apply IH. intros Hin. apply Habsent.
      by apply (contains_prepend s old (String c "")).
Qed.

Lemma pathParameter_no_placeholder path param res :
  ~ contains path ("{" ++ Param.Name param ++ "}") ->
  pathParameter path param res = path.
Proof.
  intros Habsent. unfold pathParameter, replacePlaceholder.
  repeat case_match; try reflexivity; by apply Replace1_absent.
Qed.

Lemma pathParameter_absent path param res :
  gjson.Exists res = false -> pathParameter path param res = path.
Proof. intros Hres. unfold pathParameter. by rewrite Hres. Qed.

Lemma queryParameter_absent q param res :
  gjson.Exists res = false -> queryParameter q param res = q.
Proof. intros Hres. unfold queryParameter. by rewrite Hres. Qed.

End Placeholders.

(** X1: a path parameter whose placeholder [{name}] does not occur in the path,
    as it stands when the parameter's turn comes, changes nothing: the path is
    the one obtained without that parameter, whatever its value and style. *)
Theorem path_parameter_without_placeholder (W : Externals) (path input : string)
    (before after : list Param.t) (param : Param.t) :
  ~ contains (handlePathParameters path before input)
      ("{" ++ Param.Name param ++ "}") ->
  handlePathParameters path (before ++ param :: after)%list input
  = handlePathParameters path (before ++ after)%list input.
Proof.
  intros Habsent.
  rewrite !handlePathParameters_app, handlePathParameters_cons.
  by rewrite pathParameter_no_placeholder.
Qed.

(** An instance: the template has no [{limit}]. *)
Lemma path_parameter_without_placeholder_witness :
  let payload := Setting.obj [("limit", gjson.JNumber "5")] in
  let W := Setting.world (Setting.listPetsDoc "https://api.example.com") payload Setting.noenv in
  @handlePathParameters W "/pets" ([] ++ Param.mk "limit" "" None :: [])%list
    (gjson.Str payload)
  = @handlePathParameters W "/pets" ([] ++ [])%list (gjson.Str payload).
Proof.
  intros payload W.
  apply (path_parameter_without_placeholder W "/pets" (gjson.Str payload) [] []
           (Param.mk "limit" "" None)).
  intros (pre & post & Hsplit).
  change (handlePathParameters "/pets" [] (gjson.Str payload)) with "/pets" in Hsplit.
  simpl Param.Name in Hsplit.
  do 5 (destruct pre as [|? pre]; [discriminate|];
        rewrite append_cons in Hsplit; injection Hsplit as _ Hsplit).
  destruct pre; discriminate.
Defined.

(** X2: a parameter for which the payload has no value leaves no trace: the
    path, the query, the headers and the cookies are those obtained without
    that parameter. *)
Theorem absent_value_skipped (W : Externals) (input : string)
    (before after : list Param.t) (param : Param.t) :
  gjson.Exists (gjson_Get input (Param.Name param)) = false ->
  (forall path,
      handlePathParameters path (before ++ param :: after)%list input
      = handlePathParameters path (before ++ after)%list input)
  /\ (forall q,
        handleQueryParameters q (before ++ param :: after)%list input
        = handleQueryParameters q (before ++ after)%list input)
  /\ (forall req,
        handleHeaderParameters req (before ++ param :: after)%list input
        = handleHeaderParameters req (before ++ after)%list input)
  /\ (forall req,
        handleCookieParameters req (before ++ param :: after)%list input
        = handleCookieParameters req (before ++ after)%list input).
Proof.
  intros Hres. repeat split.
  - intros path. rewrite !handlePathParameters_app, handlePathParameters_cons.
    by rewrite pathParameter_absent.
  - intros q. rewrite !handleQueryParameters_app, handleQueryParameters_cons.
    by rewrite queryParameter_absent.
  - intros req. rewrite !handleHeaderParameters_app, handleHeaderParameters_cons.
    unfold headerParameter. by rewrite Hres.
  - intros req. rewrite !handleCookieParameters_app, handleCookieParameters_cons.
    unfold cookieParameter. by rewrite Hres.
Qed.

(** An instance: the payload has [limit] but not [offset]. *)
Lemma absent_value_skipped_witness :
  let payload := Setting.obj [("limit", gjson.JNumber "5")] in
  let W := Setting.world (Setting.listPetsDoc "https://api.example.com") payload Setting.noenv in
  url.Encode (@handleQueryParameters W ∅
                ([Param.mk "limit" "" None] ++ Param.mk "offset" "" None :: [])%list
                (gjson.Str payload))
  = "limit=5".
Proof.
  intros payload W.
  rewrite (proj1 (proj2 (absent_value_skipped W (gjson.Str payload)
                           [Param.mk "limit" "" None] [] (Param.mk "offset" "" None)
                           eq_refl))).
  reflexivity.
Defined.

(** X3: the query parameters only add to the query the URL already has: under
    every key, the values present before are still there, in their order and
    before the ones added. *)
Theorem query_parameters_keep_url_query (W : Externals) (q : url.Values)
    (params : list Param.t) (input key : string) (values : list string) :
  q !! key = Some values ->
  exists added,
    handleQueryParameters q params input !! key = Some (values ++ added)%list.
Proof. intros Hkey. by apply handleQueryParameters_extends. Qed.

(** An instance: the URL has [tags=x], the payload adds [a] and [b]. *)
Lemma query_parameters_keep_url_query_witness :
  let payload := Setting.obj [("tags", Setting.arr [gjson.JString "a"; gjson.JString "b"])] in
  let W := Setting.world (Setting.listPetsDoc "https://api.example.com") payload Setting.noenv in
  exists added,
    @handleQueryParameters W {["tags" := ["x"]]} [Param.mk "tags" "form" None]
      (gjson.Str payload) !! "tags"
    = Some (["x"] ++ added)%list.
Proof.
  intros payload W.
  apply (query_parameters_keep_url_query W {["tags" := ["x"]]}
           [Param.mk "tags" "form" None] (gjson.Str payload) "tags" ["x"]).
  reflexivity.
Defined.

(** ** Headers, cookies and the styles of the query *)

Section HeadersAndCookies.
Context `{Externals}.

Lemma set_Header_Header header req :
  http.Request.Header (set_Header header req) = header.
Proof. by destruct req. Qed.

Lemma set_Header_rest header req :
  http.Request.Method (set_Header header req) = http.Request.Method req
  /\ http.Request.Cookies (set_Header header req) = http.Request.Cookies req
  /\ http.Request.Body (set_Header header req) = http.Request.Body req.
Proof. by destruct req. Qed.

Lemma AddCookie_rest req c :
  http.Request.Method (AddCookie req c) = http.Request.Method req
  /\ http.Request.Header (AddCookie req c) = http.Request.Header req
  /\ http.Request.Body (AddCookie req c) = http.Request.Body req
  /\ http.Request.Cookies (AddCookie req c) = (http.Request.Cookies req ++ [c])%list.
Proof. by destruct req. Qed.

(** The lines under [key] after one header parameter. *)
Lemma headerParameter_lines req param res key :
  default [] (http.Request.Header (headerParameter req param res) !! key)
  = (default [] (http.Request.Header req !! key)
     ++ if gjson.Exists res && String.eqb (CanonicalHeaderKey (Param.Name param)) key
        then [headerValue param res] else [])%list.
Proof.
  unfold headerParameter, addHeader, Header_Add.
  destruct (gjson.Exists res); simpl; [|by rewrite app_nil_r].
  rewrite set_Header_Header.
  destruct (String.eqb_spec (CanonicalHeaderKey (Param.Name param)) key) as [->|Hne].
  - by rewrite lookup_insert_eq.
  - rewrite lookup_insert_ne by done. by rewrite app_nil_r.
Qed.

Lemma headerParameter_rest req param res :
  http.Request.Method (headerParameter req param res) = http.Request.Method req
  /\ http.Request.URL (headerParameter req param res) = http.Request.URL req
  /\ http.Request.Cookies (headerParameter req param res) = http.Request.Cookies req
  /\ http.Request.Body (headerParameter req param res) = http.Request.Body req.
Proof.
  unfold headerParameter, addHeader. destruct (gjson.Exists res); [|done].
  rewrite set_Header_URL. by destruct (set_Header_rest
    (Header_Add (http.Request.Header req) (Param.Name param) (headerValue param res)) req)
    as (-> & -> & ->).
Qed.

(** A member of an object is added under its key by the loop over the
    members. *)
Lemma fold_Add_member (f g : string * gjson.Result -> string)
    (members : list (string * gjson.Result)) : forall (q : url.Values) kv,
  List.In kv members ->
  exists before after,
    fold_left (fun q kv => url.Add q (f kv) (g kv)) members q !! f kv
    = Some (before ++ g kv :: after)%list.
Proof.
  induction members as [|kv0 members IH]; intros q kv Hin; [destruct Hin|].
  simpl. destruct Hin as [->|Hin]; [|by apply IH].
  destruct (fold_left_extends (fun q kv => url.Add q (f kv) (g kv))
              (fun q a => Add_extends q (f a) (g a)) members
              (url.Add q (f kv) (g kv)) (f kv) _ (Add_lookup q (f kv) (g kv)))
    as [added Hadded].
  exists (default [] (q !! f kv)), added.
  by rewrite Hadded, <- app_assoc.
Qed.

End HeadersAndCookies.

(** The header lines and the cookies after the two loops. *)
Lemma handleHeaderParameters_lines (W : Externals) (params : list Param.t)
    (input key : string) (req : http.Request.t) :
  let req' := handleHeaderParameters req params input in
  default [] (http.Request.Header req' !! key)
  = (default [] (http.Request.Header req !! key)
     ++ List.map (fun param => headerValue param (gjson_Get input (Param.Name param)))
          (List.filter
             (fun param =>
                gjson.Exists (gjson_Get input (Param.Name param))
                && String.eqb (CanonicalHeaderKey (Param.Name param)) key)
             params))%list
  /\ http.Request.Method req' = http.Request.Method req
  /\ http.Request.URL req' = http.Request.URL req
  /\ http.Request.Cookies req' = http.Request.Cookies req
  /\ http.Request.Body req' = http.Request.Body req.
Proof.
  revert req. induction params as [|param rest IH]; intros req.
  - simpl. by rewrite app_nil_r.
  - cbv zeta. rewrite handleHeaderParameters_cons.
    destruct (IH (headerParameter req param (gjson_Get input (Param.Name param))))
      as (Hlines & Hmethod & Hurl & Hcookies & Hbody).
    destruct (headerParameter_rest req param (gjson_Get input (Param.Name param)))
      as (Hmethod1 & Hurl1 & Hcookies1 & Hbody1).
    rewrite Hlines, Hmethod, Hurl, Hcookies, Hbody, Hmethod1, Hurl1, Hcookies1, Hbody1.
    rewrite headerParameter_lines. simpl List.filter.
    split; [|done].
    destruct (gjson.Exists _ && String.eqb _ key); simpl;
      by rewrite <- ?app_assoc, ?app_nil_r.
Qed.

Lemma handleCookieParameters_cookies (W : Externals) (params : list Param.t)
    (input : string) (req : http.Request.t) :
  let req' := handleCookieParameters req params input in
  http.Request.Cookies req'
  = (http.Request.Cookies req ++ omap (cookieOf input) params)%list
  /\ http.Request.Method req' = http.Request.Method req
  /\ http.Request.URL req' = http.Request.URL req
  /\ http.Request.Header req' = http.Request.Header req
  /\ http.Request.Body req' = http.Request.Body req.
Proof.
  revert req. induction params as [|param rest IH]; intros req.
  - simpl. by rewrite app_nil_r.
  - cbv zeta. rewrite handleCookieParameters_cons.
    destruct (IH (cookieParameter req param (gjson_Get input (Param.Name param))))
      as (Hcookies & Hmethod & Hurl & Hheader & Hbody).
    rewrite Hcookies, Hmethod, Hurl, Hheader, Hbody.
    unfold cookieParameter. simpl omap. unfold cookieOf at 2.
    destruct (gjson.Exists (gjson_Get input (Param.Name param))); [|done].
    rewrite AddCookie_URL.
    destruct (AddCookie_rest req
                (http.Cookie.mk (Param.Name param)
                   (cookieValue (gjson_Get input (Param.Name param)))))
      as (-> & -> & -> & ->).
    by rewrite <- app_assoc.
Qed.



(** X6: with explode true or absent, an array is serialised in the same way
    under the styles form (also when the style is left out), spaceDelimited and
    pipeDelimited: one pair of the name and the item for each item. *)
Theorem exploded_array_styles_agree (W : Externals) (name style1 style2 input : string)
    (explode : option bool) (before after : list Param.t) (q : url.Values) :
  slices_Contains queryArrayStyles style1 = true ->
  slices_Contains queryArrayStyles style2 = true ->
  exploded explode = true ->
  gjson.IsArray (gjson_Get input name) = true ->
  handleQueryParameters q (before ++ Param.mk name style1 explode :: after)%list input
  = handleQueryParameters q (before ++ Param.mk name style2 explode :: after)%list input
  /\ handleQueryParameters q (before ++ Param.mk name style1 explode :: after)%list input
     = handleQueryParameters
         (addItems (handleQueryParameters q before input) name
            (gjson.Array (gjson_Get input name)))
         after input.
Proof.
  intros Hstyle1 Hstyle2 Hexplode Harray.
  assert (Hstep : forall style q',
             slices_Contains queryArrayStyles style = true ->
             queryParameter q' (Param.mk name style explode) (gjson_Get input name)
             = addItems q' name (gjson.Array (gjson_Get input name))).
  { intros style q' Hstyle. unfold queryParameter, queryArray. simpl.
    destruct (gjson_Get input name); try discriminate. simpl. rewrite Hexplode.
    unfold slices_Contains, queryArrayStyles in Hstyle. simpl in Hstyle.
    destruct (String.eqb style "form"); [done|].
    destruct (String.eqb style ""); [done|].
    destruct (String.eqb style "spaceDelimited"); [done|].
    destruct (String.eqb style "pipeDelimited"); [done|discriminate]. }
  rewrite !handleQueryParameters_app, !handleQueryParameters_cons. simpl Param.Name.
  by rewrite !Hstep.
Qed.

(** An instance: [tags] under pipeDelimited and under form, exploded. *)
Lemma exploded_array_styles_agree_witness :
  let payload := Setting.obj [("tags", Setting.arr [gjson.JString "a"; gjson.JString "b"])] in
  let W := Setting.world (Setting.listPetsDoc "https://api.example.com") payload Setting.noenv in
  url.Encode (@handleQueryParameters W ∅
                ([] ++ Param.mk "tags" "pipeDelimited" None :: [])%list (gjson.Str payload))
  = "tags=a&tags=b".
Proof.
  intros payload W.
  rewrite (proj1 (exploded_array_styles_agree W "tags" "pipeDelimited" "form"
                    (gjson.Str payload) None [] [] ∅ eq_refl eq_refl eq_refl eq_refl)).
  reflexivity.
Defined.

(** X7: under style deepObject, every member [k], [v] of an object value bound
    to the parameter [name] is in the compiled query string as the pair of
    [name[k]] and [v], both escaped, whatever explode says, whatever the query
    already in the URL and the other query parameters. *)
Theorem deepObject_member_in_query (W : Externals) (args name raw k : string)
    (v : gjson.Result) (members : list (string * gjson.Result))
    (explode : option bool) (q0 : url.Values) (before after : list Param.t) :
  gjson_Get args name = gjson.JObject raw members ->
  List.In (k, v) members ->
  contains
    (url.Encode (handleQueryParameters q0
                   (before ++ Param.mk name "deepObject" explode :: after)%list args))
    (url.QueryEscape (name ++ "[" ++ k ++ "]") ++ "=" ++ url.QueryEscape (gjson.Str v)).
Proof.
  intros Hget Hin.
  rewrite handleQueryParameters_app, handleQueryParameters_cons.
  simpl Param.Name. rewrite Hget.
  set (q1 := handleQueryParameters q0 before args).
  change (queryParameter q1 (Param.mk name "deepObject" explode) (gjson.JObject raw members))
    with (fold_left (fun q (kv : string * gjson.Result) =>
                       url.Add q (name ++ "[" ++ kv.1 ++ "]") (gjson.Str kv.2)) members q1).
  destruct (fold_Add_member (fun kv => name ++ "[" ++ kv.1 ++ "]") (fun kv => gjson.Str kv.2)
              members q1 (k, v) Hin) as (values1 & values2 & Hadded).
  destruct (handleQueryParameters_extends after args _ _ _ Hadded) as [added Hfinal].
  rewrite <- app_assoc in Hfinal.
  exact (Encode_contains_pair _ _ _ _ _ Hfinal).
Qed.

(** An instance: the object with members [a], [1] and [b], [2] bound to
    [filter]. *)
Lemma deepObject_member_in_query_witness :
  let payload :=
    Setting.obj [("filter", Setting.obj [("a", gjson.JString "1"); ("b", gjson.JString "2")])] in
  let W := Setting.world (Setting.listPetsDoc "https://api.example.com") payload Setting.noenv in
  contains
    (url.Encode (@handleQueryParameters W ∅
                   ([] ++ Param.mk "filter" "deepObject" None :: [])%list (gjson.Str payload)))
    "filter%5Bb%5D=2".
Proof.
  intros payload W.
  apply (deepObject_member_in_query W (gjson.Str payload) "filter"
           (gjson.Str (Setting.obj [("a", gjson.JString "1"); ("b", gjson.JString "2")]))
           "b" (gjson.JString "2")
           [("a", gjson.JString "1"); ("b", gjson.JString "2")] None ∅ [] []).
  - reflexivity.
  - right. left. reflexivity.
Defined.

(** X8: explode is not read where the code says it has no effect: for a scalar
    value of a path parameter and of a query parameter, whatever the style; for
    any value of a query parameter of style deepObject; for a header value that
    is not an object; and for every cookie. *)
Theorem explode_ignored (W : Externals) (name style input : string)
    (explode1 explode2 : option bool) (before after : list Param.t) :
  let res := gjson_Get input name in
  let p1 := Param.mk name style explode1 in
  let p2 := Param.mk name style explode2 in
  (gjson.IsArray res = false -> gjson.IsObject res = false ->
   (forall path,
       handlePathParameters path (before ++ p1 :: after)%list input
       = handlePathParameters path (before ++ p2 :: after)%list input)
   /\ (forall q,
         handleQueryParameters q (before ++ p1 :: after)%list input
         = handleQueryParameters q (before ++ p2 :: after)%list input))
  /\ (style = "deepObject" ->
      forall q,
        handleQueryParameters q (before ++ p1 :: after)%list input
        = handleQueryParameters q (before ++ p2 :: after)%list input)
  /\ (gjson.IsObject res = false ->
      forall req,
        handleHeaderParameters req (before ++ p1 :: after)%list input
        = handleHeaderParameters req (before ++ p2 :: after)%list input)
  /\ (forall req,
        handleCookieParameters req (before ++ p1 :: after)%list input
        = handleCookieParameters req (before ++ p2 :: after)%list input).
Proof.
  intros res p1 p2. split; [|split; [|split]].
  - intros Harray Hobject. split.
    + intros path. rewrite !handlePathParameters_app, !handlePathParameters_cons.
      simpl Param.Name. fold res. f_equal.
      unfold pathParameter. simpl. by rewrite Harray, Hobject.
    + intros q. rewrite !handleQueryParameters_app, !handleQueryParameters_cons.
      simpl Param.Name. fold res. f_equal.
      unfold queryParameter. simpl. by rewrite Harray, Hobject.
  - intros -> q. rewrite !handleQueryParameters_app, !handleQueryParameters_cons.
    simpl Param.Name. fold res. reflexivity.
  - intros Hobject req.
    rewrite !handleHeaderParameters_app, !handleHeaderParameters_cons.
    simpl Param.Name. fold res. f_equal.
    unfold headerParameter, headerValue. simpl. by rewrite Hobject.
  - intros req. by rewrite !handleCookieParameters_app, !handleCookieParameters_cons.
Qed.

(** An instance: the scalar [5] bound to [id] under style matrix. *)
Lemma explode_ignored_witness :
  let payload := Setting.obj [("id", gjson.JNumber "5")] in
  let W := Setting.world (Setting.listPetsDoc "https://api.example.com") payload Setting.noenv in
  @handlePathParameters W "/pets/{id}" ([] ++ Param.mk "id" "matrix" (Some true) :: [])%list
    (gjson.Str payload)
  = @handlePathParameters W "/pets/{id}" ([] ++ Param.mk "id" "matrix" None :: [])%list
      (gjson.Str payload).
Proof.
  intros payload W.
  apply (proj1 (proj1 (explode_ignored W "id" "matrix" (gjson.Str payload)
                         (Some true) None [] []) eq_refl eq_refl)).
Defined.

(** ** What extraction returns *)

Section Found.

Lemma parseServer_Ret server s :
  parseServer server = Ret s ->
  s = substituteVariables server /\ strings.HasPrefix s "http" = true.
Proof.
  unfold parseServer.
  destruct (strings.HasPrefix (substituteVariables server) "http") eqn:Hhttp;
    simpl; [|discriminate].
  by intros [= <-].
Qed.

Lemma parseServer_cases server :
  parseServer server = Ret (substituteVariables server)
  \/ parseServer server = Fail (InvalidServerURL (substituteVariables server)).
Proof.
  unfold parseServer.
  destruct (strings.HasPrefix (substituteVariables server) "http"); simpl; auto.
Qed.

(** The operation that a successful extraction was made from. *)
Lemma GetSchema_doc_found t operationID r :
  GetSchema_doc operationID t = Ret (Some r) ->
  exists defaultServer path pathItem method operation pathServer,
    match T.Servers t with
    | server :: _ => parseServer server
    | [] => Ret ""
    end = Ret defaultServer
    /\ List.In (path, pathItem) (T.Paths t)
    /\ List.In (method, operation) (PathItem.Operations pathItem)
    /\ Operation.OperationID operation = operationID
    /\ match PathItem.Servers pathItem with
       | server :: _ => parseServer server
       | [] => Ret defaultServer
       end = Ret pathServer
    /\ extractOperation operationID path method pathServer pathItem operation = Ret r.
Proof.
  unfold GetSchema_doc.
  destruct (match T.Servers t with
            | server :: _ => parseServer server
            | [] => Ret ""
            end) as [defaultServer| |]; simpl; try discriminate.
  intros Hscan. exists defaultServer.
  induction (T.Paths t) as [|[path pathItem] rest IH]; simpl in Hscan; [discriminate|].
  destruct (match PathItem.Servers pathItem with
            | server :: _ => parseServer server
            | [] => Ret defaultServer
            end) as [pathServer| |] eqn:Hserver; simpl in Hscan; try discriminate.
  destruct (List.find _ _) as [[method operation]|] eqn:Hfind.
  - destruct (extractOperation _ _ _ _ _ _) as [r'| |] eqn:Hextract; simpl in Hscan;
      try discriminate.
    injection Hscan as ->.
    apply find_some in Hfind as [Hin Hid]. unfold matches in Hid. simpl in Hid.
    apply String.eqb_eq in Hid.
    exists path, pathItem, method, operation, pathServer.
    repeat split; try done. by left.
  - destruct (IH Hscan) as (path' & item' & method' & op' & server' & _ & Hin & Hrest).
    exists path', item', method', op', server'. split; [done|]. split; [by right|done].
Qed.

Lemma saveParameter_place info in_ p :
  OperationInfo.Server (saveParameter info in_ p) = OperationInfo.Server info
  /\ OperationInfo.Path (saveParameter info in_ p) = OperationInfo.Path info
  /\ OperationInfo.Method (saveParameter info in_ p) = OperationInfo.Method info.
Proof. destruct info. unfold saveParameter. by repeat case_match. Qed.

Lemma addParameters_place params : forall st st',
  addParameters st params = Ret st' ->
  OperationInfo.Server st'.2 = OperationInfo.Server st.2
  /\ OperationInfo.Path st'.2 = OperationInfo.Path st.2
  /\ OperationInfo.Method st'.2 = OperationInfo.Method st.2.
Proof.
  induction params as [|param rest IH]; intros st st' Hrun; simpl in Hrun.
  - by injection Hrun as <-.
  - destruct (addParameter st param) as [st1| |] eqn:Hstep; try discriminate.
    simpl in Hrun. destruct (IH _ _ Hrun) as (-> & -> & ->).
    destruct st as [arguments info]. unfold addParameter in Hstep.
    destruct (parameterArg param); [|discriminate].
    injection Hstep as <-. simpl. apply saveParameter_place.
Qed.

(** What the loop over the parameters leaves in [arguments]. *)
Lemma addParameters_schema params : forall st st',
  addParameters st params = Ret st' ->
  dom (Properties st'.1)
  = dom (Properties st.1) ∪ list_to_set (List.map OAParameter.Name params)
  /\ Required st'.1
     = (Required st.1
        ++ List.map OAParameter.Name (List.filter OAParameter.Required params))%list.
Proof.
  induction params as [|param rest IH]; intros st st' Hrun; simpl in Hrun.
  - injection Hrun as <-. simpl. split; [set_solver|by rewrite app_nil_r].
  - destruct (addParameter st param) as [st1| |] eqn:Hstep; try discriminate.
    simpl in Hrun. destruct (IH _ _ Hrun) as (Hdom & Hreq).
    rewrite Hdom, Hreq. clear IH Hdom Hreq Hrun.
    destruct st as [arguments info]. unfold addParameter in Hstep.
    destruct (parameterArg param); [|discriminate].
    injection Hstep as <-. simpl.
    destruct (OAParameter.Required param); simpl; rewrite dom_insert_L;
      (split; [set_solver|by rewrite <- ?app_assoc]).
Qed.

(** The two ways the loop over the content map can end. *)
Lemma selectBody_result content : forall arguments info st',
  selectBody (arguments, info) content = Ret st' ->
  (st' = (arguments, info)
   /\ List.find (fun entry : string * MediaType.t =>
                   slices_Contains supportedMIMETypes entry.1) content = None)
  \/ (exists mime media arg,
         List.find (fun entry : string * MediaType.t =>
                      slices_Contains supportedMIMETypes entry.1) content
         = Some (mime, media)
         /\ bodyArg media = Some arg
         /\ st' = (set_Required (Required arguments ++ ["requestBodyContent"])
                     (set_Properties
                        (<["requestBodyContent" := mkSchemaRef "" arg]>
                           (Properties arguments)) arguments),
                   set_BodyContentMIME mime info)).
Proof.
  induction content as [|[mime media] rest IH]; intros arguments info st' Hrun;
    simpl in Hrun.
  - injection Hrun as <-. by left.
  - simpl. destruct (slices_Contains supportedMIMETypes mime) eqn:Hmime; simpl in Hrun.
    + destruct (bodyArg media) as [arg|] eqn:Harg; [|discriminate].
      injection Hrun as <-. right. by exists mime, media, arg.
    + by apply IH.
Qed.

Lemma set_BodyContentMIME_rest mime info :
  OperationInfo.Server (set_BodyContentMIME mime info) = OperationInfo.Server info
  /\ OperationInfo.Path (set_BodyContentMIME mime info) = OperationInfo.Path info
  /\ OperationInfo.Method (set_BodyContentMIME mime info) = OperationInfo.Method info.
Proof. by destruct info. Qed.

(** The stages of the extraction of one operation, when it succeeds. *)
Lemma extractOperation_stages operationID path method pathServer pathItem operation
    schema info :
  extractOperation operationID path method pathServer pathItem operation
  = Ret (schema, info) ->
  exists operationServer st,
    match Operation.Servers operation with
    | Some (server :: _) => parseServer server
    | _ => Ret pathServer
    end = Ret operationServer
    /\ addParameters
         (arguments0, OperationInfo.mk operationServer path method "" [] [] [] [])
         (Operation.Parameters operation ++ PathItem.Parameters pathItem)%list
       = Ret st
    /\ addRequestBody operationID st (Operation.RequestBody operation)
       = Ret (schema, info).
Proof.
  unfold extractOperation. intros Hrun.
  destruct (match Operation.Servers operation with
            | Some (server :: _) => parseServer server
            | _ => Ret pathServer
            end) as [operationServer| |]; try discriminate.
  simpl in Hrun.
  destruct (addParameters _ _) as [st| |] eqn:Hparams; try discriminate.
  simpl in Hrun. by exists operationServer, st.
Qed.

(** The request-body stage, when it succeeds. *)
Lemma addRequestBody_result operationID arguments info body schema info' :
  addRequestBody operationID (arguments, info) body = Ret (schema, info') ->
  OperationInfo.BodyContentMIME info = "" ->
  match body with
  | None => schema = arguments /\ info' = info
  | Some rb =>
      exists mime media arg,
        List.find (fun entry : string * MediaType.t =>
                     slices_Contains supportedMIMETypes entry.1) (RequestBody.Content rb)
        = Some (mime, media)
        /\ bodyArg media = Some arg
        /\ schema = set_Required (Required arguments ++ ["requestBodyContent"])
                      (set_Properties
                         (<["requestBodyContent" := mkSchemaRef "" arg]>
                            (Properties arguments)) arguments)
        /\ info' = set_BodyContentMIME mime info
  end.
Proof.
  unfold addRequestBody. destruct body as [rb|]; [|by intros [= <- <-]].
  destruct (selectBody (arguments, info) (RequestBody.Content rb)) as [st'| |] eqn:Hbody;
    simpl; try discriminate.
  intros Hrun Hnone.
  destruct (selectBody_result _ _ _ _ Hbody) as [[-> _]|(mime & media & arg & Hfind & Harg & ->)].
  - simpl in Hrun. rewrite Hnone in Hrun. discriminate.
  - simpl in Hrun. destruct (String.eqb _ ""); [discriminate|].
    injection Hrun as <- <-. by exists mime, media, arg.
Qed.

End Found.

(** X9: when an operation is found, it is an operation of the document with
    the identifier asked for, and the descriptor carries its path and its
    method; the server of the descriptor is resolved from the first server
    entry of the operation, else of its path item, else of the document, and
    begins with [http]; it is empty when no level declares a server. *)
Theorem found_descriptor_place (t : T.t) (operationID : string) (schema : Schema)
    (info : OperationInfo.t) :
  GetSchema_doc operationID t = Ret (Some (schema, info)) ->
  exists path pathItem method operation,
    List.In (path, pathItem) (T.Paths t)
    /\ List.In (method, operation) (PathItem.Operations pathItem)
    /\ Operation.OperationID operation = operationID
    /\ OperationInfo.Path info = path
    /\ OperationInfo.Method info = method
    /\ match effectiveServer t pathItem operation with
       | Some server =>
           OperationInfo.Server info = substituteVariables server
           /\ strings.HasPrefix (OperationInfo.Server info) "http" = true
       | None => OperationInfo.Server info = ""
       end.
Proof.
  intros Hfound.
  destruct (GetSchema_doc_found _ _ _ Hfound)
    as (defaultServer & path & pathItem & method & operation & pathServer
        & Hdefault & Hpath & Hop & Hid & Hserver & Hextract).
  exists path, pathItem, method, operation.
  destruct (extractOperation_stages _ _ _ _ _ _ _ _ Hextract)
    as (operationServer & [arguments1 info1] & Hopserver & Hparams & Hbody).
  destruct (addParameters_place _ _ _ Hparams) as (Hs & Hp & Hm). simpl in Hs, Hp, Hm.
  assert (Hrest : OperationInfo.Server info = OperationInfo.Server info1
                  /\ OperationInfo.Path info = OperationInfo.Path info1
                  /\ OperationInfo.Method info = OperationInfo.Method info1).
  { unfold addRequestBody in Hbody.
    destruct (Operation.RequestBody operation) as [rb|]; [|by injection Hbody as _ <-].
    destruct (selectBody _ _) as [st'| |] eqn:Hselect; simpl in Hbody; try discriminate.
    destruct (String.eqb _ ""); [discriminate|]. injection Hbody as ->.
    destruct (selectBody_result _ _ _ _ Hselect) as [[[= _ <-] _]|(mime & media & arg & _ & _ & [= _ ->])];
      [done|apply set_BodyContentMIME_rest]. }
  destruct Hrest as (-> & -> & ->). rewrite Hs, Hp, Hm.
  repeat split; try done.
  unfold effectiveServer.
  destruct (Operation.Servers operation) as [[|server servers]|].
  - injection Hopserver as <-.
    destruct (PathItem.Servers pathItem) as [|server servers].
    + injection Hserver as <-. destruct (T.Servers t) as [|server servers]; simpl.
      * by injection Hdefault as <-.
      * apply parseServer_Ret in Hdefault as [-> Hhttp]. done.
    + apply parseServer_Ret in Hserver as [-> Hhttp]. done.
  - apply parseServer_Ret in Hopserver as [-> Hhttp]. done.
  - injection Hopserver as <-.
    destruct (PathItem.Servers pathItem) as [|server servers].
    + injection Hserver as <-. destruct (T.Servers t) as [|server servers]; simpl.
      * by injection Hdefault as <-.
      * apply parseServer_Ret in Hdefault as [-> Hhttp]. done.
    + apply parseServer_Ret in Hserver as [-> Hhttp]. done.
Qed.

(** An instance: one operation under the server of the document. *)
Lemma found_descriptor_place_witness :
  let t := Setting.paramDoc "findPets" "/pets"
             [Setting.param "tags" "query" "form" None true] [] in
  let found := match GetSchema_doc "findPets" t with
               | Ret (Some r) => r
               | _ => (arguments0, OperationInfo.zero)
               end in
  exists path pathItem method operation,
    List.In (path, pathItem) (T.Paths t)
    /\ List.In (method, operation) (PathItem.Operations pathItem)
    /\ Operation.OperationID operation = "findPets"
    /\ OperationInfo.Path found.2 = path
    /\ OperationInfo.Method found.2 = method
    /\ match effectiveServer t pathItem operation with
       | Some server =>
           OperationInfo.Server found.2 = substituteVariables server
           /\ strings.HasPrefix (OperationInfo.Server found.2) "http" = true
       | None => OperationInfo.Server found.2 = ""
       end.
Proof.
  intros t found.
  apply (found_descriptor_place t "findPets" found.1 found.2).
  reflexivity.
Defined.

(** X10: when an operation is found, the keys of the properties of the schema
    are exactly the names of the parameters of the operation and of its path
    item, with [requestBodyContent] when the operation declares a body; and
    the required list holds the names of the parameters marked required, those
    of the operation first, in order of declaration and with repetitions, then
    [requestBodyContent] when the operation declares a body. *)
Theorem found_schema_keys (t : T.t) (operationID : string) (schema : Schema)
    (info : OperationInfo.t) :
  GetSchema_doc operationID t = Ret (Some (schema, info)) ->
  exists path pathItem method operation,
    List.In (path, pathItem) (T.Paths t)
    /\ List.In (method, operation) (PathItem.Operations pathItem)
    /\ Operation.OperationID operation = operationID
    /\ let merged := (Operation.Parameters operation
                      ++ PathItem.Parameters pathItem)%list in
       dom (Properties schema)
       = list_to_set (List.map OAParameter.Name merged)
         ∪ match Operation.RequestBody operation with
           | Some _ => {["requestBodyContent"]}
           | None => (∅ : gset string)
           end
       /\ Required schema
          = (List.map OAParameter.Name (List.filter OAParameter.Required merged)
             ++ match Operation.RequestBody operation with
                | Some _ => ["requestBodyContent"]
                | None => []
                end)%list.
Proof.
  intros Hfound.
  destruct (GetSchema_doc_found _ _ _ Hfound)
    as (defaultServer & path & pathItem & method & operation & pathServer
        & Hdefault & Hpath & Hop & Hid & Hserver & Hextract).
  exists path, pathItem, method, operation. repeat split; try done.
  - destruct (extractOperation_stages _ _ _ _ _ _ _ _ Hextract)
      as (operationServer & [arguments1 info1] & _ & Hparams & Hbody).
    destruct (addParameters_schema _ _ _ Hparams) as [Hdom _]. simpl in Hdom.
    pose proof (addParameters_BodyContentMIME _ _ _ Hparams) as Hmime. simpl in Hmime.
    pose proof (addRequestBody_result _ _ _ _ _ _ Hbody Hmime) as Hresult.
    destruct (Operation.RequestBody operation) as [rb|].
    + destruct Hresult as (mime & media & arg & _ & _ & -> & _).
      simpl. rewrite dom_insert_L, Hdom. set_solver.
    + destruct Hresult as [-> _]. rewrite Hdom. set_solver.
  - destruct (extractOperation_stages _ _ _ _ _ _ _ _ Hextract)
      as (operationServer & [arguments1 info1] & _ & Hparams & Hbody).
    destruct (addParameters_schema _ _ _ Hparams) as [_ Hreq]. simpl in Hreq.
    pose proof (addParameters_BodyContentMIME _ _ _ Hparams) as Hmime. simpl in Hmime.
    pose proof (addRequestBody_result _ _ _ _ _ _ Hbody Hmime) as Hresult.
    destruct (Operation.RequestBody operation) as [rb|].
    + destruct Hresult as (mime & media & arg & _ & _ & -> & _).
      simpl. by rewrite Hreq.
    + destruct Hresult as [-> _]. by rewrite Hreq, app_nil_r.
Qed.

(** An instance: a required query parameter and a JSON body. *)
Lemma found_schema_keys_witness :
  let t := T.mk [Server.mk "https://api.example.com" []]
             [("/pets",
               PathItem.mk [] [Setting.param "trace" "header" "" None false]
                 [("POST",
                   Operation.mk "createPet" "" "" None
                     [Setting.param "dryRun" "query" "form" None true]
                     (Some (RequestBody.mk
                              [("application/json",
                                MediaType.mk (Some Setting.anySchema))])))])] in
  let found := match GetSchema_doc "createPet" t with
               | Ret (Some r) => r
               | _ => (arguments0, OperationInfo.zero)
               end in
  dom (Properties found.1) = {["dryRun"; "trace"; "requestBodyContent"]}
  /\ Required found.1 = ["dryRun"; "requestBodyContent"].
Proof.
  intros t found.
  destruct (found_schema_keys t "createPet" found.1 found.2 eq_refl)
    as (path & pathItem & method & operation & Hpath & Hop & _ & Hdom & Hreq).
  destruct Hpath as [[= <- <-]|[]]. destruct Hop as [[= <- <-]|[]].
  split; [rewrite Hdom; simpl; set_solver|exact Hreq].
Defined.



(** X12: for an identifier that no operation of the document has, GetSchema
    reports [found = false] when the document's first server entry and the
    first server entry of every path item resolve; in any case it then either
    reports [found = false] or fails on a server URL: it finds nothing, does
    not panic and reports no body error.  Conversely, an operation that is
    found is an operation of the document. *)
Theorem absent_operation_not_found (t : T.t) (operationID : string) :
  (~ hasOperation operationID t ->
   (GetSchema_doc operationID t = Ret None
    \/ exists s, GetSchema_doc operationID t = Fail (InvalidServerURL s))
   /\ (firstServerOK (T.Servers t) = true ->
       forallb (fun entry : string * PathItem.t => firstServerOK (PathItem.Servers entry.2))
         (T.Paths t) = true ->
       GetSchema_doc operationID t = Ret None))
  /\ (forall r, GetSchema_doc operationID t = Ret (Some r) -> hasOperation operationID t).
Proof.
  split.
  - intros Habsent. unfold GetSchema_doc.
    assert (Hscan : forall defaultServer,
               (scanPaths operationID defaultServer (T.Paths t) = Ret None
                \/ exists s, scanPaths operationID defaultServer (T.Paths t)
                             = Fail (InvalidServerURL s))
               /\ (forallb (fun entry : string * PathItem.t =>
                              firstServerOK (PathItem.Servers entry.2)) (T.Paths t) = true ->
                   scanPaths operationID defaultServer (T.Paths t) = Ret None)).
    { intros defaultServer. unfold hasOperation in Habsent.
      induction (T.Paths t) as [|[path pathItem] rest IH]; simpl; [by split; [left|]|].
      assert (Hfind : List.find (matches operationID) (PathItem.Operations pathItem) = None).
      { destruct (List.find _ _) as [[method operation]|] eqn:Hfind; [|done].
        apply find_some in Hfind as [Hin Hid]. unfold matches in Hid. simpl in Hid.
        apply String.eqb_eq in Hid. exfalso. apply Habsent.
        exists path, pathItem, method, operation. split; [by left|done]. }
      rewrite Hfind.
      destruct IH as [IHany IHok].
      { intros (path' & item' & method' & op' & Hin & Hrest). apply Habsent.
        exists path', item', method', op'. split; [by right|done]. }
      destruct (PathItem.Servers pathItem) as [|server servers]; simpl.
      - split; [exact IHany|exact IHok].
      - split.
        + destruct (parseServer_cases server) as [-> | ->]; simpl; [exact IHany|eauto].
        + intros Hok. apply andb_prop in Hok as [Hserver Hok].
          rewrite (parseServer_firstServerOK server servers Hserver). simpl. by apply IHok. }
    destruct (T.Servers t) as [|server servers]; simpl.
    + split; [apply Hscan|]. intros _. apply Hscan.
    + split.
      * destruct (parseServer_cases server) as [-> | ->]; simpl; [apply Hscan|eauto].
      * intros Hserver. rewrite (parseServer_firstServerOK server servers Hserver).
        simpl. apply Hscan.
  - intros r Hfound.
    destruct (GetSchema_doc_found _ _ _ Hfound)
      as (defaultServer & path & pathItem & method & operation & pathServer
          & _ & Hpath & Hop & Hid & _).
    by exists path, pathItem, method, operation.
Qed.

(** An instance: an identifier that the document does not have. *)
Lemma absent_operation_not_found_witness :
  GetSchema_doc "deletePet" (Setting.listPetsDoc "https://api.example.com") = Ret None.
Proof.
  apply (proj1 (absent_operation_not_found
                  (Setting.listPetsDoc "https://api.example.com") "deletePet")).
  - intros (path & pathItem & method & operation & Hpath & Hop & Hid).
    destruct Hpath as [[= <- <-]|[]]. destruct Hop as [[= <- <-]|[]]. discriminate.
  - reflexivity.
  - reflexivity.
Defined.

(** ** Reference stripping *)

Section Stripping.









End Stripping.



(** ** The list of operations *)

Section Listing.

Lemma fold_left_snd {A B C : Type} (f : A -> B * C -> A) (g : A -> C -> A)
    (l : list (B * C)) :
  (forall a entry, f a entry = g a entry.2) ->
  forall a, fold_left f l a = fold_left g (List.map snd l) a.
Proof.
  intros Hfg. induction l as [|entry l IH]; intros a; [reflexivity|].
  simpl. by rewrite Hfg, IH.
Qed.

Lemma List_doc_flat (t : T.t) :
  openapi.List_doc t = fold_left assign (allOperations t) ∅.
Proof.
  unfold openapi.List_doc, allOperations.
  generalize (∅ : gmap string openapi.Operation.t).
  induction (T.Paths t) as [|[path pathItem] rest IH]; intros operations; [reflexivity|].
  simpl. rewrite fold_left_app, IH. f_equal.
  by apply fold_left_snd.
Qed.

Lemma fold_assign_lookup (operations : list Operation.t) (operationID : string) :
  fold_left assign operations ∅ !! operationID
  = listed <$> last (List.filter
                       (fun operation =>
                          String.eqb (Operation.OperationID operation) operationID)
                       operations).
Proof.
  induction operations as [|operation operations IH] using rev_ind; [reflexivity|].
  rewrite fold_left_app, List.filter_app. simpl. unfold assign at 1.
  destruct (String.eqb_spec (Operation.OperationID operation) operationID) as [->|Hne].
  - by rewrite lookup_insert_eq, last_snoc.
  - rewrite lookup_insert_ne by done. by rewrite app_nil_r.
Qed.

Lemma fold_assign_dom (operations : list Operation.t) :
  dom (fold_left assign operations ∅)
  = list_to_set (List.map Operation.OperationID operations).
Proof.
  induction operations as [|operation operations IH] using rev_ind; [set_solver|].
  rewrite fold_left_app, List.map_app. simpl. unfold assign at 1.
  rewrite dom_insert_L, IH, list_to_set_app_L. simpl. set_solver.
Qed.

Lemma fold_assign_size (operations : list Operation.t) :
  List.NoDup (List.map Operation.OperationID operations) ->
  size (fold_left assign operations ∅) = length operations.
Proof.
  induction operations as [|operation operations IH] using rev_ind; [reflexivity|].
  rewrite List.map_app. simpl. intros Hnodup.
  apply NoDup_remove in Hnodup as [Hnodup Hfresh]. rewrite app_nil_r in Hnodup, Hfresh.
  rewrite fold_left_app, length_app. simpl. unfold assign at 1.
  rewrite map_size_insert_None, (IH Hnodup); [lia|].
  apply not_elem_of_dom. rewrite fold_assign_dom.
  rewrite elem_of_list_to_set, list_elem_of_In. exact Hfresh.
Qed.

Lemma hasOperation_allOperations (t : T.t) (operationID : string) :
  hasOperation operationID t
  <-> exists operation, List.In operation (allOperations t)
                        /\ Operation.OperationID operation = operationID.
Proof.
  unfold hasOperation, allOperations. split.
  - intros (path & pathItem & method & operation & Hpath & Hop & Hid).
    exists operation. split; [|done].
    apply in_flat_map. exists (path, pathItem). split; [done|].
    apply in_map_iff. by exists (method, operation).
  - intros (operation & Hin & Hid).
    apply in_flat_map in Hin as ([path pathItem] & Hpath & Hin).
    apply in_map_iff in Hin as ([method operation'] & Heq & Hop). simpl in Heq. subst.
    by exists path, pathItem, method, operation.
Qed.

(** X14: the operation list holds an entry exactly for the identifiers that
    operations of the document have; under each identifier stand the
    description and the summary of the operation with that identifier that the
    loops visit last; and when the identifiers are pairwise distinct, there are
    as many entries as operations and each operation is listed with its own
    description and summary. *)
Theorem List_entries (t : T.t) (operationID : string) :
  openapi.List_doc t !! operationID
  = (fun operation =>
       openapi.Operation.mk (Operation.Description operation) (Operation.Summary operation))
    <$> last (List.filter
                (fun operation => String.eqb (Operation.OperationID operation) operationID)
                (allOperations t))
  /\ (is_Some (openapi.List_doc t !! operationID) <-> hasOperation operationID t)
  /\ (List.NoDup (List.map Operation.OperationID (allOperations t)) ->
      size (openapi.List_doc t) = length (allOperations t)
      /\ forall operation,
           List.In operation (allOperations t) ->
           openapi.List_doc t !! Operation.OperationID operation
           = Some (openapi.Operation.mk (Operation.Description operation)
                     (Operation.Summary operation))).
Proof.
  rewrite List_doc_flat. split; [apply fold_assign_lookup|]. split.
  - rewrite <- elem_of_dom, fold_assign_dom, elem_of_list_to_set, list_elem_of_In.
    rewrite hasOperation_allOperations, in_map_iff. naive_solver.
  - intros Hnodup. split; [by apply fold_assign_size|].
    intros operation Hin. rewrite fold_assign_lookup.
    assert (Hlast : forall operations : list Operation.t,
               List.NoDup (List.map Operation.OperationID operations) ->
               List.In operation operations ->
               last (List.filter
                       (fun operation' =>
                          String.eqb (Operation.OperationID operation')
                            (Operation.OperationID operation)) operations)
               = Some operation).
    { clear. intros operations.
      induction operations as [|x operations IH] using rev_ind; intros Hnodup Hin;
        [destruct Hin|].
      rewrite List.map_app in Hnodup. simpl in Hnodup.
      apply NoDup_remove in Hnodup as [Hnodup Hfresh].
      rewrite app_nil_r in Hnodup, Hfresh.
      rewrite List.filter_app. simpl.
      apply in_app_or in Hin as [Hin|[->|[]]].
      - destruct (String.eqb_spec (Operation.OperationID x) (Operation.OperationID operation))
          as [Heq|Hne].
        + exfalso. apply Hfresh. rewrite Heq. by apply in_map.
        + rewrite app_nil_r. by apply IH.
      - by rewrite String.eqb_refl, last_snoc. }
    by rewrite (Hlast _ Hnodup Hin).
Qed.

End Listing.

(** An instance: two operations with distinct identifiers. *)
Lemma List_entries_witness :
  let t := T.mk []
             [("/pets",
               PathItem.mk [] []
                 [("GET", Operation.mk "listPets" "all pets" "List the pets" None [] None);
                  ("POST", Operation.mk "createPet" "a new pet" "Create a pet" None [] None)])] in
  size (openapi.List_doc t) = 2
  /\ openapi.List_doc t !! "listPets"
     = Some (openapi.Operation.mk "List the pets" "all pets")
  /\ openapi.List_doc t !! "createPet"
     = Some (openapi.Operation.mk "Create a pet" "a new pet").
Proof.
  intros t.
  assert (Hnodup : List.NoDup (List.map Operation.OperationID (allOperations t))).
  { simpl. repeat constructor; simpl; intuition discriminate. }
  destruct (proj2 (proj2 (List_entries t "")) Hnodup) as [Hsize Hown].
  split; [exact Hsize|]. split.
  - apply (Hown (Operation.mk "listPets" "all pets" "List the pets" None [] None)).
    simpl. auto.
  - apply (Hown (Operation.mk "createPet" "a new pet" "Create a pet" None [] None)).
    simpl. auto.
Defined.

(** ** Running an operation *)

Section Running.
Context `{Externals}.

(** When [Run] gets as far as a request. *)
Lemma Run_request_Some operationID file args req :
  let input := if String.eqb args "" then "{}" else args in
  Run_request operationID file args = Ret (Some req) <->
  exists schema info joined u req0,
    GetSchema operationID file = Ret (Some (schema, info))
    /\ Validate schema input = Some true
    /\ url_JoinPath (OperationInfo.Server info)
         (handlePathParameters (OperationInfo.Path info)
            (OperationInfo.PathParams info) input) = Some joined
    /\ url_Parse joined = Some u
    /\ http_NewRequest (OperationInfo.Method info) (URL_String u) = Some req0
    /\ handleBody (prepared info input req0) (OperationInfo.BodyContentMIME info) input
       = Ret req.
Proof.
  intros input. unfold Run_request. fold input. split.
  - destruct (GetSchema operationID file) as [[[schema info]|]| |]; simpl; try discriminate.
    destruct (Validate schema input) as [[|]|] eqn:Hvalid; simpl; try discriminate.
    destruct (url_JoinPath _ _) as [joined|] eqn:Hjoin; simpl; try discriminate.
    destruct (url_Parse joined) as [u|] eqn:Hparse; simpl; try discriminate.
    destruct (http_NewRequest _ _) as [req0|] eqn:Hreq0; simpl; try discriminate.
    fold (prepared info input req0).
    destruct (handleBody _ _ _) as [req'| |] eqn:Hbody; simpl; try discriminate.
    intros [= <-]. by exists schema, info, joined, u, req0.
  - intros (schema & info & joined & u & req0 & -> & Hvalid & Hjoin & Hparse & Hreq0 & Hbody).
    simpl. rewrite Hvalid. simpl. rewrite Hjoin. simpl. rewrite Hparse. simpl.
    rewrite Hreq0. simpl. fold (prepared info input req0). by rewrite Hbody.
Qed.

(** The shape of what [Run] returns. *)
Lemma Run_shape operationID file args :
  match (Run operationID file args).2 with
  | Ret None => (Run operationID file args).1 = []
  | Ret (Some _) => exists req, (Run operationID file args).1 = [req]
  | _ => length (Run operationID file args).1 <= 1
  end.
Proof.
  unfold Run. destruct (Run_request operationID file args) as [[req|]| |]; simpl;
    try done; try lia.
  destruct (http_Do req) as [resp|]; simpl; [|lia].
  destruct (io_ReadAll resp); simpl; [eauto|lia].
Qed.

Lemma writeFields_Ret members : forall body body',
  writeFields body members = Ret body' <->
  exists parts,
    List.Forall2 (fun (kv : string * gjson.Result) part =>
                    multipart_WriteField kv.1 (gjson.Str kv.2) = Some part) members parts
    /\ body' = body ++ String.concat "" parts.
Proof.
  induction members as [|[k v] rest IH]; intros body body'; simpl.
  - split.
    + intros [= <-]. exists []. split; [constructor|]. simpl. by rewrite append_nil_r.
    + intros (parts & Hparts & ->). inversion Hparts. simpl. by rewrite append_nil_r.
  - destruct (multipart_WriteField k (gjson.Str v)) as [part|] eqn:Hpart; simpl.
    + rewrite IH. split.
      * intros (parts & Hparts & ->). exists (part :: parts).
        split; [by constructor|].
        destruct parts; simpl; by rewrite ?append_nil_l, ?append_nil_r, ?append_assoc.
      * intros (parts & Hparts & ->).
        inversion Hparts as [|? part' ? parts' Hhead Htail]; subst.
        simpl in Hhead. rewrite Hpart in Hhead. injection Hhead as <-.
        exists parts'. split; [done|].
        destruct parts'; simpl; by rewrite ?append_nil_l, ?append_nil_r, ?append_assoc.
    + split; [discriminate|].
      intros (parts & Hparts & _). inversion Hparts as [|? ? ? ? Hhead]; subst.
      simpl in Hhead. congruence.
Qed.

(** What the body stage does to the request. *)
Lemma handleBody_request req mime args req' :
  handleBody req mime args = Ret req' ->
  (mime = "" /\ req' = req)
  \/ (mime <> ""
      /\ http.Request.Header req'
         = <[CanonicalHeaderKey "Content-Type" :=
               [if String.eqb mime "multipart/form-data"
                then FormDataContentType else mime]]> (http.Request.Header req)
      /\ is_Some (http.Request.Body req')
      /\ http.Request.Method req' = http.Request.Method req
      /\ http.Request.URL req' = http.Request.URL req
      /\ http.Request.Cookies req' = http.Request.Cookies req).
Proof.
  unfold handleBody.
  destruct (String.eqb_spec mime "") as [->|Hmime]; [intros [= <-]; by left|].
  intros Hrun. right. split; [done|].
  destruct (String.eqb_spec mime "application/json") as [->|_].
  { destruct (json_Encode _); simpl in Hrun; [|discriminate].
    injection Hrun as <-. by destruct req. }
  destruct (String.eqb_spec mime "text/plain") as [->|_].
  { injection Hrun as <-. by destruct req. }
  destruct (String.eqb_spec mime "multipart/form-data") as [->|_]; [|discriminate].
  destruct (gjson.Exists _ && gjson.IsObject _); [|discriminate].
  destruct (writeFields _ _); simpl in Hrun; try discriminate.
  destruct multipart_Close; simpl in Hrun; [|discriminate].
  injection Hrun as <-. by destruct req.
Qed.

(** The head line that [Header.Set] leaves survives the header parameters. *)
Lemma prepared_Authorization info input req0 :
  Getenv "OPENAPI_BEARER" <> "" ->
  exists more,
    http.Request.Header (prepared info input req0) !! CanonicalHeaderKey "Authorization"
    = Some (("Bearer " ++ Getenv "OPENAPI_BEARER") :: more).
Proof.
  intros Hbearer. unfold prepared.
  destruct (String.eqb_spec (Getenv "OPENAPI_BEARER") "") as [|_]; [done|]. simpl.
  match goal with
  | |- context [handleCookieParameters ?r ?ps input] =>
      destruct (handleCookieParameters_cookies H ps input r) as (_ & _ & _ & -> & _)
  end.
  match goal with
  | |- context [handleHeaderParameters ?r ?ps input] =>
      pose proof (proj1 (handleHeaderParameters_lines H ps input
                           (CanonicalHeaderKey "Authorization") r)) as Hlines;
      cbv zeta in Hlines
  end.
  match type of Hlines with
  | _ = (default [] (?h !! _) ++ ?added)%list =>
      assert (Hset : h !! CanonicalHeaderKey "Authorization"
                     = Some ["Bearer " ++ Getenv "OPENAPI_BEARER"])
  end.
  { destruct (Getenv "OPENAPI_QUERY_KEY" =? "")%string; simpl;
      destruct req0; simpl; unfold Header_Set; by rewrite lookup_insert_eq. }
  rewrite Hset in Hlines. simpl in Hlines.
  match type of Hlines with
  | default [] ?o = _ => destruct o as [lines|] eqn:Hlookup; simpl in Hlines
  end; [|discriminate].
  subst lines. eauto.
Qed.

Lemma prepared_RawQuery info input req0 :
  url.URL.RawQuery (http.Request.URL (prepared info input req0))
  = url.Encode (handleQueryParameters
                  (url_ParseQuery (url.URL.RawQuery (http.Request.URL req0)))
                  (OperationInfo.QueryParams info) input)
    ++ (if negb (String.eqb (Getenv "OPENAPI_QUERY_KEY") "")
        then "&" ++ "key=" ++ url.QueryEscape (Getenv "OPENAPI_QUERY_KEY")
        else "").
Proof.
  unfold prepared.
  rewrite handleCookieParameters_URL, handleHeaderParameters_URL.
  destruct (negb (String.eqb (Getenv "OPENAPI_QUERY_KEY") ""));
    rewrite ?set_RawQuery_RawQuery, ?append_nil_r;
    destruct (negb (String.eqb (Getenv "OPENAPI_BEARER") ""));
    by rewrite ?set_Header_URL.
Qed.

End Running.

(** X15: Run hands a request to the HTTP client only for an operation that was
    found and whose payload the validator accepted, and then hands over that
    one request.  An operation that is not found gives [found = false] and no
    request; an extraction error is returned as it is, with no request; a
    payload that the validator rejects gives the validation error for the
    operation and no request; and a response body is returned only as read from
    the response to the request that was issued. *)
Theorem request_only_after_validation (W : Externals) (operationID file args : string) :
  let input := if String.eqb args "" then "{}" else args in
  (GetSchema operationID file = Ret None -> Run operationID file args = ([], Ret None))
  /\ (forall e, GetSchema operationID file = Fail e ->
                Run operationID file args = ([], Fail e))
  /\ (forall schema info,
        GetSchema operationID file = Ret (Some (schema, info)) ->
        Validate schema input = Some false ->
        Run operationID file args = ([], Fail (ValidationError operationID)))
  /\ (forall req,
        List.In req (Run operationID file args).1 ->
        (Run operationID file args).1 = [req]
        /\ exists schema info,
             GetSchema operationID file = Ret (Some (schema, info))
             /\ Validate schema input = Some true)
  /\ (forall body,
        (Run operationID file args).2 = Ret (Some body) ->
        exists req resp,
          (Run operationID file args).1 = [req]
          /\ http_Do req = Some resp /\ io_ReadAll resp = Some body).
Proof.
  intros input. split; [|split; [|split; [|split]]].
  - intros Hschema. unfold Run, Run_request. by rewrite Hschema.
  - intros e Hschema. unfold Run, Run_request. by rewrite Hschema.
  - intros schema info Hschema Hvalid. unfold Run, Run_request. fold input.
    rewrite Hschema. simpl. by rewrite Hvalid.
  - intros req Hin. unfold Run in *.
    destruct (Run_request operationID file args) as [[req'|]| |] eqn:Hrun;
      try (by destruct Hin).
    destruct Hin as [<-|[]]. split; [reflexivity|].
    apply Run_request_Some in Hrun
      as (schema & info & joined & u & req0 & Hschema & Hvalid & _).
    by exists schema, info.
  - intros body Hbody. unfold Run in *.
    destruct (Run_request operationID file args) as [[req|]| |]; try discriminate.
    simpl in *.
    destruct (http_Do req) as [resp|] eqn:Hdo; simpl in Hbody; [|discriminate].
    destruct (io_ReadAll resp) as [result|] eqn:Hread; simpl in Hbody; [|discriminate].
    injection Hbody as <-. by exists req, resp.
Qed.

(** An instance: a payload without the required parameter is rejected. *)
Lemma request_only_after_validation_witness :
  let t := Setting.paramDoc "findPets" "/pets"
             [Setting.param "tags" "query" "form" None true] [] in
  let W := Setting.world t (Setting.obj []) Setting.noenv in
  @Run W "findPets" "api.json" "" = ([], Fail (ValidationError "findPets")).
Proof.
  intros t W.
  pose (found := match @GetSchema W "findPets" "api.json" with
                 | Ret (Some r) => r
                 | _ => (arguments0, OperationInfo.zero)
                 end).
  apply (proj1 (proj2 (proj2 (request_only_after_validation W "findPets" "api.json" "")))
           found.1 found.2); reflexivity.
Defined.

(** X16: when the operation has a body content type, the request that Run
    builds has exactly one Content-Type line, [application/json] for a JSON body
    and the content type of the multipart writer for a multipart body, whatever
    a header parameter may have supplied under that key; and it has a body. *)
Theorem request_content_type (W : Externals) (operationID file args : string)
    (schema : Schema) (info : OperationInfo.t) (req : http.Request.t) :
  GetSchema operationID file = Ret (Some (schema, info)) ->
  Run_request operationID file args = Ret (Some req) ->
  OperationInfo.BodyContentMIME info <> "" ->
  http.Request.Header req !! CanonicalHeaderKey "Content-Type"
  = Some [if String.eqb (OperationInfo.BodyContentMIME info) "multipart/form-data"
          then FormDataContentType else OperationInfo.BodyContentMIME info]
  /\ is_Some (http.Request.Body req).
Proof.
  intros Hschema Hrun Hmime.
  apply Run_request_Some in Hrun
    as (schema' & info' & joined & u & req0 & Hschema' & _ & _ & _ & _ & Hbody).
  rewrite Hschema in Hschema'. injection Hschema' as <- <-.
  apply handleBody_request in Hbody as [[Hnone _]|(_ & Hheader & Hsome & _)]; [done|].
  split; [|exact Hsome]. by rewrite Hheader, lookup_insert_eq.
Qed.

(** An instance: a JSON body sent with a header parameter named Content-Type. *)
Lemma request_content_type_witness :
  let t := T.mk [Server.mk "https://api.example.com" []]
             [("/pets",
               PathItem.mk [] []
                 [("POST",
                   Operation.mk "createPet" "" "" None
                     [Setting.param "Content-Type" "header" "" None false]
                     (Some (RequestBody.mk
                              [("application/json",
                                MediaType.mk (Some Setting.anySchema))])))])] in
  let payload := Setting.obj [("Content-Type", gjson.JString "text/csv");
                              ("requestBodyContent", Setting.obj [])] in
  let W := Setting.world t payload Setting.noenv in
  let req := match @Run_request W "createPet" "api.json" (gjson.Str payload) with
             | Ret (Some r) => r
             | _ => http.Request.mk "" (url.URL.mk "" "") ∅ [] None
             end in
  http.Request.Header req !! "Content-Type" = Some ["application/json"].
Proof.
  intros t payload W req.
  pose (found := match @GetSchema W "createPet" "api.json" with
                 | Ret (Some r) => r
                 | _ => (arguments0, OperationInfo.zero)
                 end).
  apply (proj1 (request_content_type W "createPet" "api.json" (gjson.Str payload)
                  found.1 found.2 req eq_refl eq_refl ltac:(discriminate))).
Defined.

(** X17: for a multipart body whose requestBodyContent is an object, the body
    stage succeeds exactly when the writer accepts a field for every member and
    closes; the body is then the parts written for the members, in the order of
    the loop, each for the key and the string form of the value, followed by
    the closing of the writer. *)
Theorem multipart_body_fields (W : Externals) (req req' : http.Request.t)
    (args raw : string) (members : list (string * gjson.Result)) :
  gjson_Get args "requestBodyContent" = gjson.JObject raw members ->
  handleBody req "multipart/form-data" args = Ret req' <->
  exists parts closing,
    List.Forall2 (fun (kv : string * gjson.Result) part =>
                    multipart_WriteField kv.1 (gjson.Str kv.2) = Some part) members parts
    /\ multipart_Close = Some closing
    /\ req' = set_Body (String.concat "" parts ++ closing)
                (set_Header (Header_Set (http.Request.Header req) "Content-Type"
                               FormDataContentType) req).
Proof.
  intros Hget. unfold handleBody. simpl. rewrite Hget. simpl. split.
  - destruct (writeFields "" members) as [body| |] eqn:Hfields; simpl; try discriminate.
    destruct multipart_Close as [closing|]; simpl; [|discriminate].
    intros [= <-]. apply writeFields_Ret in Hfields as (parts & Hparts & ->).
    exists parts, closing. by rewrite append_nil_l.
  - intros (parts & closing & Hparts & -> & ->).
    assert (Hfields : writeFields "" members = Ret (String.concat "" parts)).
    { apply writeFields_Ret. exists parts. by rewrite append_nil_l. }
    by rewrite Hfields.
Qed.

(** An instance: one field. *)
Lemma multipart_body_fields_witness :
  let payload := Setting.obj [("requestBodyContent", Setting.obj [("name", gjson.JString "rex")])] in
  let W := Setting.world (Setting.bodyDoc "uploadPet" "multipart/form-data") payload
             Setting.noenv in
  let req := http.Request.mk "POST" (url.URL.mk "https://api.example.com/pets" "") ∅ [] None in
  exists req',
    @handleBody W req "multipart/form-data" (gjson.Str payload) = Ret req'
    /\ http.Request.Body req'
       = Some (Setting.part "name" "rex" ++ "--b--" ++ Setting.crlf).
Proof.
  intros payload W req.
  eexists. split.
  - apply (multipart_body_fields W req _ (gjson.Str payload)
             (gjson.Str (Setting.obj [("name", gjson.JString "rex")]))
             [("name", gjson.JString "rex")]); [reflexivity|].
    exists [Setting.part "name" "rex"], ("--b--" ++ Setting.crlf).
    split; [by repeat constructor|]. split; reflexivity.
  - reflexivity.
Defined.

(** X18: when OPENAPI_BEARER has a value, the request that Run builds has the
    line [Bearer] and that value as the first line of its Authorization header;
    header parameters under that key add their lines after it. *)
Theorem bearer_token_sent (W : Externals) (operationID file args : string)
    (req : http.Request.t) :
  Getenv "OPENAPI_BEARER" <> "" ->
  CanonicalHeaderKey "Authorization" <> CanonicalHeaderKey "Content-Type" ->
  Run_request operationID file args = Ret (Some req) ->
  exists more,
    http.Request.Header req !! CanonicalHeaderKey "Authorization"
    = Some (("Bearer " ++ Getenv "OPENAPI_BEARER") :: more).
Proof.
  intros Hbearer Hkeys Hrun.
  apply Run_request_Some in Hrun
    as (schema & info & joined & u & req0 & _ & _ & _ & _ & _ & Hbody).
  apply handleBody_request in Hbody as [[_ ->]|(_ & Hheader & _)].
  - by apply prepared_Authorization.
  - rewrite Hheader, lookup_insert_ne by done. by apply prepared_Authorization.
Qed.

(** An instance: the token [secret]. *)
Lemma bearer_token_sent_witness :
  let env := fun name => if String.eqb name "OPENAPI_BEARER" then "secret" else "" in
  let W := Setting.world (Setting.listPetsDoc "https://api.example.com") (Setting.obj []) env in
  let req := match @Run_request W "listPets" "api.json" "" with
             | Ret (Some r) => r
             | _ => http.Request.mk "" (url.URL.mk "" "") ∅ [] None
             end in
  exists more, http.Request.Header req !! "Authorization" = Some ("Bearer secret" :: more).
Proof.
  intros env W req.
  apply (bearer_token_sent W "listPets" "api.json" "" req); [discriminate..|reflexivity].
Defined.

(** X19: when OPENAPI_QUERY_KEY has no value, the query string of the request
    that Run builds is the encoding of the query that the query parameters
    made of the query already in the URL: nothing is appended. *)
Theorem query_without_key (W : Externals) (operationID file args : string)
    (req : http.Request.t) :
  let input := if String.eqb args "" then "{}" else args in
  Getenv "OPENAPI_QUERY_KEY" = "" ->
  Run_request operationID file args = Ret (Some req) ->
  exists schema info u req0,
    GetSchema operationID file = Ret (Some (schema, info))
    /\ http_NewRequest (OperationInfo.Method info) (URL_String u) = Some req0
    /\ url.URL.RawQuery (http.Request.URL req)
       = url.Encode (handleQueryParameters
                       (url_ParseQuery (url.URL.RawQuery (http.Request.URL req0)))
                       (OperationInfo.QueryParams info) input).
Proof.
  intros input Hkey Hrun.
  apply Run_request_Some in Hrun
    as (schema & info & joined & u & req0 & Hschema & _ & _ & _ & Hreq0 & Hbody).
  exists schema, info, u, req0. split; [done|]. split; [done|].
  apply handleBody_URL in Hbody. rewrite Hbody, prepared_RawQuery, Hkey. simpl.
  by rewrite append_nil_r.
Qed.

(** An instance: one query parameter, no key. *)
Lemma query_without_key_witness :
  let t := Setting.paramDoc "findPets" "/pets"
             [Setting.param "limit" "query" "form" None true] [] in
  let payload := Setting.obj [("limit", gjson.JNumber "5")] in
  let W := Setting.world t payload Setting.noenv in
  let req := match @Run_request W "findPets" "api.json" (gjson.Str payload) with
             | Ret (Some r) => r
             | _ => http.Request.mk "" (url.URL.mk "" "") ∅ [] None
             end in
  url.URL.RawQuery (http.Request.URL req) = "limit=5".
Proof.
  intros t payload W req.
  destruct (query_without_key W "findPets" "api.json" (gjson.Str payload) req
              eq_refl eq_refl)
    as (schema & info & u & req0 & Hschema & Hreq0 & Hquery).
  rewrite Hquery. clear Hquery.
  vm_compute in Hschema. injection Hschema as <- <-.
  vm_compute in Hreq0. injection Hreq0 as <-.
  reflexivity.
Defined.



(** ** The commands *)

Section CommandLoops.
Context `{Externals}.

(** A file in which the operation is not found is passed over. *)
Lemma getSchemaFiles_skip operationID before rest :
  Forall (fun file => GetSchema operationID file = Ret None) before ->
  cli.getSchemaFiles operationID (before ++ rest)%list
  = cli.getSchemaFiles operationID rest.
Proof.
  induction 1 as [|file before Hfile _ IH]; [reflexivity|].
  simpl. by rewrite Hfile.
Qed.

Lemma GetSchema_Run_files operationID files :
  files <> [] ->
  cli.GetSchema_Run (operationID :: files) = cli.getSchemaFiles operationID files.
Proof. by destruct files. Qed.

Lemma Run_not_found operationID file input :
  GetSchema operationID file = Ret None ->
  Run operationID file input = ([], Ret None).
Proof. intros Hschema. unfold Run, Run_request. by rewrite Hschema. Qed.

Lemma runFiles_skip operationID input before rest :
  Forall (fun file => GetSchema operationID file = Ret None) before ->
  cli.runFiles operationID input (before ++ rest)%list
  = cli.runFiles operationID input rest.
Proof.
  induction 1 as [|file before Hfile _ IH]; [reflexivity|].
  simpl. rewrite (Run_not_found _ _ _ Hfile), IH.
  by destruct (cli.runFiles operationID input rest) as [[requests printed] e].
Qed.

Lemma Run_Run_files operationID input files :
  files <> [] ->
  cli.Run_Run (operationID :: input :: files) = cli.runFiles operationID input files.
Proof. by destruct files. Qed.

Lemma getSchemaFiles_once operationID files :
  length (cli.getSchemaFiles operationID files).1 <= 1
  /\ ((cli.getSchemaFiles operationID files).2 = cli.Done
      <-> length (cli.getSchemaFiles operationID files).1 = 1).
Proof.
  induction files as [|file files IH]; simpl; [split; [lia|done]|].
  destruct (GetSchema operationID file) as [[[schema info]|]| |]; simpl;
    first [exact IH|split; [lia|done]].
Qed.

Lemma runFiles_once operationID input files :
  let '(requests, printed, e) := cli.runFiles operationID input files in
  length requests <= 1 /\ length printed <= 1
  /\ (e = cli.Done <-> length printed = 1)
  /\ (length printed = 1 -> length requests = 1).
Proof.
  induction files as [|file files IH]; simpl; [by repeat split; try lia|].
  pose proof (Run_shape operationID file input) as Hshape.
  destruct (Run operationID file input) as [requests [[output|]| |]]; simpl in Hshape.
  - destruct Hshape as [req ->]. by repeat split; simpl; try lia.
  - subst requests.
    by destruct (cli.runFiles operationID input files) as [[requests printed] e].
  - by repeat split; simpl; try lia.
  - by repeat split; simpl; try lia.
Qed.

Lemma listFiles_loaded files : forall docs,
  Forall2 (fun file t => LoadFromFile file = Some t) files docs ->
  forall rest,
    cli.listFiles (files ++ rest)%list
    = ((List.map openapi.List_doc docs ++ (cli.listFiles rest).1)%list,
       (cli.listFiles rest).2).
Proof.
  induction 1 as [|file t files docs Hfile _ IH]; intros rest; simpl.
  - by destruct (cli.listFiles rest).
  - unfold openapi.List. rewrite Hfile, IH. reflexivity.
Qed.

End CommandLoops.

(** X21: the get-schema command takes the operation from the first file that
    has it: when the operation is not found in the files before [file], a
    schema found in [file] is the one schema printed and the command ends
    without error, and an error of [file] ends the command with that error and
    nothing printed; the files after [file] are not read.  When the operation is
    found in none of the files, nothing is printed and the command fails with
    [not found in any file]. *)
Theorem GetSchema_Run_first_match (W : Externals) (operationID file : string)
    (before after : list string) :
  Forall (fun f => GetSchema operationID f = Ret None) before ->
  (forall schema info,
      GetSchema operationID file = Ret (Some (schema, info)) ->
      cli.GetSchema_Run (operationID :: before ++ file :: after)%list
      = ([schema], cli.Done))
  /\ (forall e,
        GetSchema operationID file = Fail e ->
        cli.GetSchema_Run (operationID :: before ++ file :: after)%list
        = ([], cli.Failed (cli.FailedToGetSchema operationID file e)))
  /\ (before <> [] ->
      cli.GetSchema_Run (operationID :: before)
      = ([], cli.Failed (cli.NotFoundInAnyFile operationID))).
Proof.
  intros Hbefore.
  assert (Hfiles : (before ++ file :: after)%list <> []) by by destruct before.
  split; [|split].
  - intros schema info Hfile.
    rewrite GetSchema_Run_files, getSchemaFiles_skip by done. simpl. by rewrite Hfile.
  - intros e Hfile.
    rewrite GetSchema_Run_files, getSchemaFiles_skip by done. simpl. by rewrite Hfile.
  - intros Hsome. rewrite GetSchema_Run_files by done.
    rewrite <- (app_nil_r before) at 1. by rewrite getSchemaFiles_skip.
Qed.

(** An instance: the second of two files has the operation. *)
Lemma GetSchema_Run_first_match_witness :
  let W := onDisk [("a.json", Setting.listPetsDoc "https://a.example.com");
                   ("b.json", Setting.bodyDoc "createPet" "application/json")]
             (Setting.world (T.mk [] []) (Setting.obj []) Setting.noenv) in
  (@cli.GetSchema_Run W ["createPet"; "a.json"; "b.json"; "c.json"]).2 = cli.Done
  /\ @cli.GetSchema_Run W ["createPet"; "a.json"]
     = ([], cli.Failed (cli.NotFoundInAnyFile "createPet")).
Proof.
  intros W.
  pose (found := match @GetSchema W "createPet" "b.json" with
                 | Ret (Some r) => r
                 | _ => (arguments0, OperationInfo.zero)
                 end).
  destruct (GetSchema_Run_first_match W "createPet" "b.json" ["a.json"] ["c.json"])
    as (Hfound & _ & Hnone); [by repeat constructor|].
  split.
  - exact (f_equal snd (Hfound found.1 found.2 eq_refl)).
  - by apply Hnone.
Defined.

(** X22: the run command runs the operation in the first file that has it:
    when the operation is not found in the files before [file], the requests
    handed to the HTTP client are those of running [file]; an output of that
    run is the one output printed and the command ends without error, and an
    error of that run ends the command with that error and nothing printed; the
    files after [file] are not read.  When the operation is found in none of the
    files, no request is made, nothing is printed and the command fails with
    [not found in any file]. *)
Theorem Run_Run_first_match (W : Externals) (operationID input file : string)
    (before after : list string) :
  Forall (fun f => GetSchema operationID f = Ret None) before ->
  (forall output,
      (Run operationID file input).2 = Ret (Some output) ->
      cli.Run_Run (operationID :: input :: before ++ file :: after)%list
      = ((Run operationID file input).1, [output], cli.Done))
  /\ (forall e,
        (Run operationID file input).2 = Fail e ->
        cli.Run_Run (operationID :: input :: before ++ file :: after)%list
        = ((Run operationID file input).1, [],
           cli.Failed (cli.FailedToRun operationID file e)))
  /\ (before <> [] ->
      cli.Run_Run (operationID :: input :: before)
      = ([], [], cli.Failed (cli.NotFoundInAnyFile operationID))).
Proof.
  intros Hbefore.
  assert (Hfiles : (before ++ file :: after)%list <> []) by by destruct before.
  split; [|split].
  - intros output Hfile.
    rewrite Run_Run_files, runFiles_skip by done. simpl.
    destruct (Run operationID file input) as [requests r]. simpl in *. by subst r.
  - intros e Hfile.
    rewrite Run_Run_files, runFiles_skip by done. simpl.
    destruct (Run operationID file input) as [requests r]. simpl in *. by subst r.
  - intros Hsome. rewrite Run_Run_files by done.
    rewrite <- (app_nil_r before) at 1. by rewrite runFiles_skip.
Qed.

(** An instance: the second of two files has the operation. *)
Lemma Run_Run_first_match_witness :
  let W := onDisk [("a.json", Setting.bodyDoc "createPet" "application/json");
                   ("b.json", Setting.listPetsDoc "https://b.example.com")]
             (Setting.world (T.mk [] []) (Setting.obj []) Setting.noenv) in
  @cli.Run_Run W ["listPets"; ""; "a.json"; "b.json"; "c.json"]
  = ([http.Request.mk "GET" (url.URL.mk "https://b.example.com/pets" "") ∅ [] None],
     ["ok"], cli.Done).
Proof.
  intros W.
  apply (proj1 (Run_Run_first_match W "listPets" "" "b.json" ["a.json"] ["c.json"]
                  ltac:(by repeat constructor)) "ok").
  reflexivity.
Defined.

(** X23: the get-schema command and the run command print at most one result,
    and print one exactly when they end without error; the run command hands
    at most one request to the HTTP client, however many files it is given, and
    has handed one over when it prints an output. *)
Theorem commands_print_once (W : Externals) (args : list string) :
  (length (cli.GetSchema_Run args).1 <= 1
   /\ ((cli.GetSchema_Run args).2 = cli.Done
       <-> length (cli.GetSchema_Run args).1 = 1))
  /\ (let '(requests, printed, e) := cli.Run_Run args in
      length requests <= 1 /\ length printed <= 1
      /\ (e = cli.Done <-> length printed = 1)
      /\ (length printed = 1 -> length requests = 1)).
Proof.
  split.
  - destruct args as [|operationID [|file files]]; simpl; try by split; [lia|].
    apply (getSchemaFiles_once operationID (file :: files)).
  - destruct args as [|operationID [|input [|file files]]];
      try by (simpl; repeat split; try lia).
    apply (runFiles_once operationID input (file :: files)).
Qed.

(** X24: the list command prints the operation list of every file up to the
    first one that cannot be loaded, in order, and fails on that file; what was
    printed before stays printed, and the files after it are not read.  When
    every file loads, it prints the list of each and ends without error. *)
Theorem List_Run_prints_until_failure (W : Externals) (before after : list string)
    (file : string) (docs : list T.t) :
  Forall2 (fun f t => LoadFromFile f = Some t) before docs ->
  (LoadFromFile file = None ->
   cli.List_Run (before ++ file :: after)%list
   = (List.map openapi.List_doc docs, cli.Failed (cli.FailedToList file)))
  /\ (before <> [] ->
      cli.List_Run before = (List.map openapi.List_doc docs, cli.Done)).
Proof.
  intros Hbefore. split.
  - intros Hfile.
    assert (Hrun : cli.List_Run (before ++ file :: after)%list
                   = cli.listFiles (before ++ file :: after)%list) by by destruct before.
    rewrite Hrun, (listFiles_loaded _ _ Hbefore). simpl. unfold openapi.List.
    rewrite Hfile. simpl. by rewrite app_nil_r.
  - intros Hsome.
    assert (Hrun : cli.List_Run before = cli.listFiles before) by by destruct before.
    rewrite Hrun. rewrite <- (app_nil_r before) at 1.
    rewrite (listFiles_loaded _ _ Hbefore). simpl. by rewrite app_nil_r.
Qed.

(** An instance: the second of three files is missing. *)
Lemma List_Run_prints_until_failure_witness :
  let a := Setting.listPetsDoc "https://a.example.com" in
  let W := onDisk [("a.json", a); ("c.json", a)]
             (Setting.world (T.mk [] []) (Setting.obj []) Setting.noenv) in
  @cli.List_Run W ["a.json"; "b.json"; "c.json"]
  = ([openapi.List_doc a], cli.Failed (cli.FailedToList "b.json")).
Proof.
  intros a W.
  apply (proj1 (List_Run_prints_until_failure W ["a.json"] ["c.json"] "b.json" [a]
                  ltac:(by repeat constructor))).
  reflexivity.
Defined.

(** ** The body content types that reach Run *)

(** The body content type of a found operation is empty or supported. *)
Lemma found_mime_supported (t : T.t) (operationID : string) (schema : Schema)
    (info : OperationInfo.t) :
  GetSchema_doc operationID t = Ret (Some (schema, info)) ->
  OperationInfo.BodyContentMIME info = ""
  \/ slices_Contains supportedMIMETypes (OperationInfo.BodyContentMIME info) = true.
Proof.
  intros Hfound.
  destruct (GetSchema_doc_found _ _ _ Hfound)
    as (defaultServer & path & pathItem & method & operation & pathServer
        & _ & _ & _ & _ & _ & Hextract).
  destruct (extractOperation_stages _ _ _ _ _ _ _ _ Hextract)
    as (operationServer & [arguments1 info1] & _ & Hparams & Hbody).
  pose proof (addParameters_BodyContentMIME _ _ _ Hparams) as Hmime. simpl in Hmime.
  pose proof (addRequestBody_result _ _ _ _ _ _ Hbody Hmime) as Hresult.
  destruct (Operation.RequestBody operation) as [rb|].
  - destruct Hresult as (mime & media & arg & Hfind & _ & _ & ->).
    rewrite BodyContentMIME_set. right.
    by apply find_some in Hfind as [_ Hfind].
  - destruct Hresult as [_ ->]. by left.
Qed.

Lemma handleBody_reports_mime `{Externals} req mime args reported :
  handleBody req mime args = Fail (UnsupportedMIME reported) ->
  reported = mime /\ mime <> "application/json" /\ mime <> "multipart/form-data".
Proof.
  unfold handleBody.
  destruct (String.eqb mime ""); [discriminate|].
  destruct (String.eqb_spec mime "application/json") as [->|Hjson].
  { by destruct (json_Encode _). }
  destruct (String.eqb mime "text/plain"); [discriminate|].
  destruct (String.eqb_spec mime "multipart/form-data") as [->|Hmultipart].
  { destruct (_ && _); [|discriminate].
    destruct (writeFields _ _) as [body| |] eqn:Hfields; simpl; try discriminate.
    - by destruct multipart_Close.
    - intros [= ->]. by apply writeFields_Fail in Hfields. }
  by intros [= ->].
Qed.

(** X25: the body content type of a found operation is empty or one of the
    three types of the supported list, so it is never [text/plain], the type of
    a case of Run.  An operation found with the body content type
    [application/x-www-form-urlencoded], which is on the supported list, cannot
    be run: Run hands no request to the HTTP client and does not return
    without error.  And when Run, for a found operation, fails with
    [unsupported MIME type], the type it reports is that one. *)
Theorem body_content_types (W : Externals) (operationID file args : string)
    (schema : Schema) (info : OperationInfo.t) :
  GetSchema operationID file = Ret (Some (schema, info)) ->
  List.In (OperationInfo.BodyContentMIME info) ("" :: supportedMIMETypes)
  /\ OperationInfo.BodyContentMIME info <> "text/plain"
  /\ (OperationInfo.BodyContentMIME info = "application/x-www-form-urlencoded" ->
      (Run operationID file args).1 = []
      /\ forall r, (Run operationID file args).2 <> Ret r)
  /\ (forall mime,
        (Run operationID file args).2 = Fail (UnsupportedMIME mime) ->
        mime = "application/x-www-form-urlencoded"
        /\ OperationInfo.BodyContentMIME info = mime).
Proof.
  intros Hschema.
  assert (Hin : List.In (OperationInfo.BodyContentMIME info) ("" :: supportedMIMETypes)).
  { unfold GetSchema in Hschema.
    destruct (LoadFromFile file) as [t|]; [|discriminate].
    destruct (found_mime_supported _ _ _ _ Hschema) as [->|Hmime]; [by left|].
    right. unfold slices_Contains in Hmime.
    apply existsb_exists in Hmime as (mime & Hmime & Heq).
    by apply String.eqb_eq in Heq as ->. }
  assert (Hrequest : forall e,
             Run_request operationID file args = Fail e ->
             (Run operationID file args).2 = Fail e).
  { intros e He. unfold Run. by rewrite He. }
  assert (Hstages :
            Run_request operationID file args <> Ret None
            /\ forall reported,
                 Run_request operationID file args = Fail (UnsupportedMIME reported) ->
                 reported = OperationInfo.BodyContentMIME info
                 /\ reported <> "application/json" /\ reported <> "multipart/form-data").
  { unfold Run_request. rewrite Hschema. simpl.
    destruct (Validate schema _) as [[|]|]; simpl; [|done..].
    destruct (url_JoinPath _ _) as [joined|]; simpl; [|done].
    destruct (url_Parse joined) as [u|]; simpl; [|done].
    destruct (http_NewRequest _ _) as [req0|]; simpl; [|done].
    destruct (handleBody _ _ _) as [req| |] eqn:Hbody; simpl; [done| |done].
    split; [done|]. intros reported [= ->].
    destruct (handleBody_reports_mime _ _ _ _ Hbody) as (<- & ? & ?). done. }
  destruct Hstages as [Hsome Hunsupported].
  split; [exact Hin|]. split; [|split].
  - intros Hplain. rewrite Hplain in Hin. simpl in Hin.
    by destruct Hin as [|[|[|[|[]]]]].
  - intros Hform.
    destruct (Run_request operationID file args) as [[req|]| |] eqn:Hrun.
    + exfalso.
      apply Run_request_Some in Hrun
        as (schema' & info' & joined & u & req0 & Hschema' & _ & _ & _ & _ & Hbody).
      rewrite Hschema in Hschema'. injection Hschema' as <- <-.
      rewrite Hform in Hbody. discriminate.
    + done.
    + unfold Run. rewrite Hrun. by split.
    + unfold Run. rewrite Hrun. by split.
  - intros mime Hfail.
    assert (Hrun : Run_request operationID file args = Fail (UnsupportedMIME mime)).
    { unfold Run in Hfail.
      destruct (Run_request operationID file args) as [[req|]| |]; simpl in Hfail.
      - destruct (http_Do req) as [resp|]; simpl in Hfail; [|discriminate].
        destruct (io_ReadAll resp); simpl in Hfail; discriminate.
      - discriminate.
      - by injection Hfail as ->.
      - discriminate. }
    destruct (Hunsupported _ Hrun) as (-> & Hjson & Hmultipart).
    split; [|done].
    simpl in Hin. destruct Hin as [Hin|[Hin|[Hin|[Hin|[]]]]]; try done.
    exfalso. unfold Run_request in Hrun. rewrite Hschema in Hrun. simpl in Hrun.
    destruct (Validate schema _) as [[|]|]; simpl in Hrun; try done.
    destruct (url_JoinPath _ _) as [joined|]; simpl in Hrun; [|done].
    destruct (url_Parse joined) as [u|]; simpl in Hrun; [|done].
    destruct (http_NewRequest _ _) as [req0|]; simpl in Hrun; [|done].
    rewrite <- Hin in Hrun. by simpl in Hrun.
Qed.

(** An instance: a body declared under the form type alone. *)
Lemma body_content_types_witness :
  let t := Setting.bodyDoc "createPet" "application/x-www-form-urlencoded" in
  let payload := Setting.obj [("requestBodyContent", Setting.obj [])] in
  let W := Setting.world t payload Setting.noenv in
  (@Run W "createPet" "api.json" (gjson.Str payload)).1 = [].
Proof.
  intros t payload W.
  pose (found := match @GetSchema W "createPet" "api.json" with
                 | Ret (Some r) => r
                 | _ => (arguments0, OperationInfo.zero)
                 end).
  apply (proj1 (proj2 (proj2 (body_content_types W "createPet" "api.json"
                                (gjson.Str payload) found.1 found.2 eq_refl)))).
  reflexivity.
Defined.
